(** * Cloud Architect AI: the /generate request path of app.py

    A shallow embedding of [_generate_with_retry],
    [generate_architecture_recommendation] and the Flask view [generate]
    of app.py, followed by the properties of the request path.

    Conventions of the embedding.
    - A Python [str] is a [string]: one [ascii] per code point, for text
      in the range U+0000..U+00FF.  On that range [str_lower], [str_strip]
      and [str_len] below are exactly [str.lower], [str.strip] and [len].
      The canned demo text holds a few characters above U+00FF; it is
      carried as its UTF-8 bytes and the code never inspects it.
    - A Python [int] is a [Z].
    - The external client ([model.generate_content]) and [time.sleep] are
      effects: they are recorded in a trace, and the client answers as a
      function of everything that happened before the call.
    - An exception is an instance of [Exception] (what [except Exception]
      catches), identified by its [str()].  [print] to stdout is not part
      of the model. *)

From Stdlib Require Import String Ascii List ZArith NArith Bool Lia PrimFloat.
Import ListNotations.
Local Open Scope string_scope.
Local Open Scope bool_scope.
Local Open Scope Z_scope.

(** ** Python strings *)

Module PyStr.

(** [len(s)] *)
Definition str_len (s : string) : Z := Z.of_nat (String.length s).

(** The characters [c] below U+0100 with [c.isspace()]:
    TAB..CR, FS..US, SPACE, NEL and NBSP. *)
Definition isspace (c : ascii) : bool :=
  let n := N_of_ascii c in
  ((9 <=? n) && (n <=? 13) || (28 <=? n) && (n <=? 32)
   || (n =? 133) || (n =? 160))%N.

(** [c.lower()] below U+0100: A..Z and the Latin-1 capitals
    U+00C0..U+00DE (U+00D7, the multiplication sign, apart). *)
Definition lower_char (c : ascii) : ascii :=
  let n := N_of_ascii c in
  if ((65 <=? n) && (n <=? 90)
      || (192 <=? n) && (n <=? 222) && negb (n =? 215))%N
  then ascii_of_N (n + 32) else c.

(** [s.lower()] *)
Fixpoint str_lower (s : string) : string :=
  match s with
  | EmptyString => EmptyString
  | String c s' => String (lower_char c) (str_lower s')
  end.

(** [s.startswith(x)] *)
Fixpoint startswith (s x : string) {struct x} : bool :=
  match x with
  | EmptyString => true
  | String a x' =>
      match s with
      | EmptyString => false
      | String b s' => Ascii.eqb a b && startswith s' x'
      end
  end.

(** [x in s] for two strings: [x] occurs in [s] as a substring. *)
Fixpoint str_in (x s : string) : bool :=
  startswith s x ||
  match s with
  | EmptyString => false
  | String _ s' => str_in x s'
  end.

(** [s.lstrip()] *)
Fixpoint lstrip (s : string) : string :=
  match s with
  | EmptyString => EmptyString
  | String c s' => if isspace c then lstrip s' else s
  end.

(** [s.rstrip()] *)
Fixpoint rstrip (s : string) : string :=
  match s with
  | EmptyString => EmptyString
  | String c s' =>
      match rstrip s' with
      | EmptyString => if isspace c then EmptyString else String c EmptyString
      | r => String c r
      end
  end.

(** [s.strip()] *)
Definition str_strip (s : string) : string := rstrip (lstrip s).

(** [c * n] for a one-character string. *)
Fixpoint str_repeat (c : ascii) (n : nat) : string :=
  match n with
  | O => EmptyString
  | S n' => String c (str_repeat c n')
  end.

(** [any(x in s for x in xs)] *)
Definition any_in (xs : list string) (s : string) : bool :=
  existsb (fun x => str_in x s) xs.

End PyStr.
Import PyStr.

(** ** Python values, exceptions and effects *)

(** What [request.get_json()] can return: the image of a JSON document.
    A [dict] is listed by its items, whose keys are distinct. *)
#[warnings="-register-all"]
Inductive pyval : Type :=
| PNone
| PBool (b : bool)
| PInt (n : Z)
| PFloat (f : float)
| PStr (s : string)
| PList (l : list pyval)
| PDict (items : list (string * pyval)).

(** An instance [e] of [Exception]: its class name and [str(e)]. *)
Record exn : Type := Raise { exn_class : string; exn_str : string }.

(** The two effects of the request path. *)
Inductive event : Type :=
| GenerateContent (prompt : string)   (* model.generate_content(prompt) *)
| Sleep (seconds : Z).                (* time.sleep(seconds) *)

Definition World : Type := list event.

(** The [text] attribute of a response object, as [getattr] and
    [response.text] see it: reading it raises, or it is absent or [None],
    or it is a string. *)
Inductive text_attr : Type :=
| TextRaises (e : exn)
| TextNone
| TextStr (s : string).

(** One call of the external client: it raises, or returns a response. *)
Inductive call_result : Type :=
| CallRaises (e : exn)
| CallReturns (text : text_attr).

(** The external client: its answer may depend on the whole history. *)
Definition Model : Type := World -> string -> call_result.

(** The module globals read by the request path. *)
Record Env : Type := { DEMO_MODE : bool; model : option Model }.

(** *** A state and exception monad

    A computation runs in a world and ends in a value, in a raised
    exception, or without an answer when the loop budget is used up; the
    effects made before a raise stay in the world. *)
Inductive res (A : Type) : Type :=
| Val (a : A)
| Exc (e : exn)
| NoFuel.
Arguments Val {A} a.
Arguments Exc {A} e.
Arguments NoFuel {A}.

Definition M (A : Type) : Type := World -> res A * World.

Definition ret {A} (a : A) : M A := fun w => (Val a, w).

Definition bind {A B} (c : M A) (k : A -> M B) : M B :=
  fun w =>
    match c w with
    | (Val a, w') => k a w'
    | (Exc e, w') => (Exc e, w')
    | (NoFuel, w') => (NoFuel, w')
    end.

Definition raise {A} (e : exn) : M A := fun w => (Exc e, w).

Definition out_of_fuel {A} : M A := fun w => (NoFuel, w).

(** [try: c  except Exception as e: h e] *)
Definition try_except {A} (c : M A) (h : exn -> M A) : M A :=
  fun w =>
    match c w with
    | (Exc e, w') => h e w'
    | r => r
    end.

Definition emit (ev : event) : M unit := fun w => (Val tt, (w ++ [ev])%list).

Declare Scope py_scope.
Delimit Scope py_scope with py.
Notation "x <- c ;; k" := (bind c (fun x => k))
  (at level 61, c at next level, right associativity) : py_scope.
Notation "c ;;; k" := (bind c (fun _ => k))
  (at level 61, right associativity) : py_scope.
Local Open Scope py_scope.

(** [model.generate_content(prompt)] *)
Definition generate_content (m : Model) (prompt : string) : M text_attr :=
  fun w =>
    match m w prompt with
    | CallRaises e => (Exc e, (w ++ [GenerateContent prompt])%list)
    | CallReturns r => (Val r, (w ++ [GenerateContent prompt])%list)
    end.

(** [getattr(response, 'text', None)] and [response.text] *)
Definition get_text (response : text_attr) : M (option string) :=
  match response with
  | TextRaises e => raise e
  | TextNone => ret None
  | TextStr s => ret (Some s)
  end.

(** [time.sleep(delay)] *)
Definition sleep (delay : Z) : M unit := emit (Sleep delay).

(** Number of external calls recorded in a trace. *)
Definition calls (w : World) : nat :=
  List.length (filter (fun ev => match ev with GenerateContent _ => true | _ => false end) w).

(** The delays slept, in order. *)
Definition sleeps (w : World) : list Z :=
  flat_map (fun ev => match ev with Sleep d => [d] | _ => [] end) w.

(** ** Module constants *)

Definition ARCHITECTURE_PROMPT_TEMPLATE : string := "
You are an expert Google Cloud Architect. Analyze the following software project description and provide a comprehensive Google Cloud architecture recommendation.

Project Description: {project_description}

Please provide:
1. Recommended Google Cloud services and their specific configurations
2. Architecture diagram description or component relationships
3. Scalability considerations and best practices
4. Cost optimization suggestions
5. Security recommendations
6. Deployment strategy

Focus on practical, actionable recommendations that follow Google Cloud best practices. Structure your response clearly with headings and bullet points for easy reading.
".

Definition demo_response : string := "
# Google Cloud Architecture Recommendation

## Recommended Services
- **Cloud Run**: Serverless container platform for your SaaS application
- **Cloud SQL (PostgreSQL)**: Managed relational database with high availability
- **Cloud Storage**: Object storage for file uploads and static assets
- **Cloud Pub/Sub**: Message queue for email notifications and async tasks
- **Cloud CDN**: Content delivery network for global performance
- **Identity Platform**: Authentication and user management with RBAC

## Architecture Overview
```
Internet → Cloud CDN → Cloud Load Balancer
                          ↓
                    Cloud Run (Auto-scaling)
                          ↓
        ┌─────────────────┼─────────────────┐
        ↓                 ↓                 ↓
    Cloud SQL       Cloud Storage      Pub/Sub
    (Primary DB)    (File Storage)   (Async Tasks)
```

## Scalability Considerations
1. **Auto-scaling**: Cloud Run scales 0→N based on traffic (handles work-hour spikes)
2. **Read replicas**: Add Cloud SQL read replicas for query performance
3. **Connection pooling**: Use Cloud SQL Proxy with connection limits
4. **Caching**: Implement Cloud Memorystore (Redis) for session/data caching
5. **Multi-region**: Deploy in multiple regions for global users

## Cost Optimization
1. **Pay-per-use**: Cloud Run charges only for actual request time
2. **Right-sizing**: Start with min instances = 0, scale based on actual load
3. **Storage lifecycle**: Move old files to Coldline/Archive storage classes
4. **Committed use**: Purchase 1-year commits for predictable workloads
5. **Budget alerts**: Set up billing alerts at 50%, 80%, 100% thresholds

## Security Recommendations
1. **VPC**: Run Cloud Run in VPC with private Cloud SQL connection
2. **IAM**: Use service accounts with least-privilege principles
3. **Identity Platform**: Built-in GDPR compliance features
4. **Encryption**: Enable customer-managed encryption keys (CMEK)
5. **Audit logs**: Enable Cloud Audit Logs for compliance tracking
6. **WAF**: Use Cloud Armor for DDoS protection and rate limiting

## Deployment Strategy
1. **CI/CD Pipeline**:
   - Cloud Build for automated builds on git push
   - Separate dev/staging/prod environments
   - Blue-green deployments with traffic splitting
   
2. **Infrastructure as Code**:
   - Terraform or Cloud Deployment Manager
   - Version control all infrastructure configs

3. **Monitoring**:
   - Cloud Monitoring for metrics and alerts
   - Cloud Logging for centralized logs
   - Error Reporting for exception tracking

## GDPR Compliance
- Data residency: Deploy in EU regions (europe-west1)
- Identity Platform: Built-in consent management
- Cloud DLP: Automatic PII detection and redaction
- Audit logs: 400-day retention for compliance

**Estimated Monthly Cost**: $500-2000 for 100k MAU (varies with actual usage patterns)
".

(** [ARCHITECTURE_PROMPT_TEMPLATE.format(project_description=value)]:
    the template has no brace other than those of its one field. *)
Fixpoint format_from (skip : nat) (template value : string) : string :=
  match template with
  | EmptyString => EmptyString
  | String c rest =>
      match skip with
      | S k => format_from k rest value
      | O =>
          if startswith template "{project_description}"
          then value ++ format_from 20 rest value
          else String c (format_from 0 rest value)
      end
  end.

Definition format (template project_description : string) : string :=
  format_from 0 template project_description.

(** ** The recommendation generator *)

(** The 4-tuple [(success, text, error, rate_limited)]. *)
Definition outcome : Type := bool * option string * option string * bool.

(** Truth value of a string: [bool(s)]. *)
Definition str_truthy (s : string) : bool := negb (s =? "")%string.

(** [any(x in lower for x in ["429", "rate", "quota", "too many requests"])]
    with [lower = msg.lower()]. *)
Definition is_rate (msg : string) : bool :=
  any_in ["429"; "rate"; "quota"; "too many requests"] (str_lower msg).

(** How one run of the [while] statement ends: by a [return] inside its
    body, or by its condition becoming false. *)
Inductive loop_exit : Type :=
| Return (o : outcome)
| Fallthrough (last_error : option string).

(** The body of the [try] block. *)
Definition try_body (m : Model) (prompt : string) : M outcome :=
  response <- generate_content m prompt ;;
  t <- get_text response ;;
  if match t with Some s => str_truthy s | None => false end
  then text <- get_text response ;; ret (true, text, None, false)
  else ret (false, None, Some "No response generated from Gemini API.", false).

(** [while attempt <= max_retries: try: ... except Exception as e: ...];
    [fuel] bounds the number of times the condition is evaluated. *)
Fixpoint retry_loop (fuel : nat) (m : Model) (prompt : string)
    (max_retries attempt : Z) (last_error : option string) : M loop_exit :=
  match fuel with
  | O => out_of_fuel
  | S fuel' =>
      if attempt <=? max_retries then
        try_except
          (o <- try_body m prompt ;; ret (Return o))
          (fun e =>
             let msg := exn_str e in
             let last_error := Some msg in
             if is_rate msg && (attempt <? max_retries) then
               let delay := 2 ^ attempt in
               sleep delay ;;;
               retry_loop fuel' m prompt max_retries (attempt + 1) last_error
             else
               ret (Return (false, None,
                            Some ("Error generating architecture recommendation: " ++ msg),
                            is_rate msg)))
      else ret (Fallthrough last_error)
  end.

(** Evaluations of the loop condition granted to one invocation. *)
Definition loop_fuel (max_retries : Z) : nat := S (Z.to_nat max_retries).

(** [last_error or 'Unknown error'] *)
Definition or_unknown (last_error : option string) : string :=
  match last_error with
  | Some s => if str_truthy s then s else "Unknown error"
  | None => "Unknown error"
  end.

Definition _generate_with_retry (env : Env) (prompt : string) (max_retries : Z)
  : M outcome :=
  if DEMO_MODE env then ret (true, Some demo_response, None, false)
  else
    match model env with
    | None =>
        ret (false, None,
             Some "Gemini API is not configured. Please check your API key.", false)
    | Some m =>
        x <- retry_loop (loop_fuel max_retries) m prompt max_retries 0 None ;;
        match x with
        | Return o => ret o
        | Fallthrough last_error =>
            ret (false, None,
                 Some ("Error generating architecture recommendation: "
                       ++ or_unknown last_error), false)
        end
    end.

(** [generate_architecture_recommendation], over the function it calls
    with the formatted prompt and the default [max_retries]. *)
Definition generate_architecture_recommendation_with
    (retry : string -> Z -> M outcome) (project_description : string)
  : M (bool * option string * option string) :=
  let prompt := format ARCHITECTURE_PROMPT_TEMPLATE project_description in
  o <- retry prompt 2 ;;
  let '(success, text, error, _) := o in
  ret (success, text, error).

Definition generate_architecture_recommendation (env : Env)
  : string -> M (bool * option string * option string) :=
  generate_architecture_recommendation_with (_generate_with_retry env).

(** ** The /generate view *)

(** What the view reads of Flask's [request]: the [is_json] property and
    the result of [get_json()], which raises on a body it cannot parse. *)
Record Request : Type := { is_json : bool; get_json : exn + pyval }.

(** What the view returns: [(jsonify(body), status)] or
    [(jsonify(body), status, headers)]. *)
Record HttpResponse : Type :=
  { body : list (string * pyval); status : Z; headers : list (string * string) }.

(** [type(v).__name__] *)
Definition type_name (v : pyval) : string :=
  match v with
  | PNone => "NoneType"
  | PBool _ => "bool"
  | PInt _ => "int"
  | PFloat _ => "float"
  | PStr _ => "str"
  | PList _ => "list"
  | PDict _ => "dict"
  end.

(** [bool(v)] *)
Definition truthy (v : pyval) : bool :=
  match v with
  | PNone => false
  | PBool b => b
  | PInt n => negb (n =? 0)
  | PFloat f => negb (PrimFloat.eqb f 0)
  | PStr s => str_truthy s
  | PList l => match l with [] => false | _ => true end
  | PDict items => match items with [] => false | _ => true end
  end.

(** [d.get(key)] on the items of a dict. *)
Fixpoint dict_get (key : string) (items : list (string * pyval)) : option pyval :=
  match items with
  | [] => None
  | (k, v) :: rest => if (k =? key)%string then Some v else dict_get key rest
  end.

Definition TypeError {A} (msg : string) : M A := raise (Raise "TypeError" msg).
Definition AttributeError {A} (msg : string) : M A := raise (Raise "AttributeError" msg).
Definition KeyError {A} (msg : string) : M A := raise (Raise "KeyError" msg).

(** [key in v] for a string [key]. *)
Definition py_in (key : string) (v : pyval) : M bool :=
  match v with
  | PDict items => ret (match dict_get key items with Some _ => true | None => false end)
  | PList l =>
      ret (existsb (fun x => match x with PStr s => (s =? key)%string | _ => false end) l)
  | PStr s => ret (str_in key s)
  | _ => TypeError ("argument of type '" ++ type_name v ++ "' is not iterable")
  end.

(** [v[key]] for a string [key]. *)
Definition py_getitem (v : pyval) (key : string) : M pyval :=
  match v with
  | PDict items =>
      match dict_get key items with
      | Some x => ret x
      | None => KeyError ("'" ++ key ++ "'")
      end
  | PList _ => TypeError "list indices must be integers or slices, not str"
  | PStr _ => TypeError "string indices must be integers, not 'str'"
  | _ => TypeError ("'" ++ type_name v ++ "' object is not subscriptable")
  end.

(** [v.strip()] *)
Definition py_strip (v : pyval) : M string :=
  match v with
  | PStr s => ret (str_strip s)
  | _ => AttributeError ("'" ++ type_name v ++ "' object has no attribute 'strip'")
  end.

(** [x in error_message] and [x in error_message.lower()], where
    [error_message] may be [None]. *)
Definition in_message (x : string) (error_message : option string) : M bool :=
  match error_message with
  | Some s => ret (str_in x s)
  | None => TypeError "argument of type 'NoneType' is not iterable"
  end.

Definition in_message_lower (x : string) (error_message : option string) : M bool :=
  match error_message with
  | Some s => ret (str_in x (str_lower s))
  | None => AttributeError "'NoneType' object has no attribute 'lower'"
  end.

(** [request.get_json()] *)
Definition request_get_json (request : Request) : M pyval :=
  match get_json request with
  | inl e => raise e
  | inr v => ret v
  end.

Definition of_optional (s : option string) : pyval :=
  match s with Some x => PStr x | None => PNone end.

(** [jsonify({'status': 'error', 'error': msg}), code] *)
Definition error_response (msg : string) (code : Z) : HttpResponse :=
  {| body := [("status", PStr "error"); ("error", PStr msg)];
     status := code; headers := [] |}.

(** [a or b], evaluating [b] only when [a] is false. *)
Definition or_else (a : M bool) (b : M bool) : M bool :=
  x <- a ;; if x then ret true else b.

Section View.

(** The function the view calls once validation has passed. *)
Variable recommend : string -> M (bool * option string * option string).

(** The last [if success: ... else: ...] of the view: the response for a
    generator result. *)
Definition respond (result : bool * option string * option string)
  : M HttpResponse :=
  let '(success, response_text, error_message) := result in
  if success then
    ret {| body := [("status", PStr "success");
                    ("response", of_optional response_text)];
           status := 200; headers := [] |}
  else
    is_key <- in_message "API key" error_message ;;
    if is_key then
      ret (error_response "Service configuration error. Please try again later." 500)
    else
      is_quota <- or_else (in_message_lower "quota" error_message)
                    (or_else (in_message_lower "rate" error_message)
                             (in_message "429" error_message)) ;;
      if is_quota then
        ret {| body := [("status", PStr "error");
                        ("error", PStr "Service temporarily unavailable due to high demand. Please try again in a few minutes.")];
               status := 429; headers := [("Retry-After", "60")] |}
      else
        ret (error_response
               "Unable to generate architecture recommendation. Please try again." 503).

(** The body of the view [generate]: the [try] block with its checks in
    the order of app.py, and the catch-all handler. *)
Definition generate_with (request : Request) : M HttpResponse :=
  try_except
    (if negb (is_json request) then
       ret (error_response "Request must be JSON format" 400)
     else
       data <- request_get_json request ;;
       missing <- or_else (ret (negb (truthy data)))
                    (b <- py_in "prompt" data ;; ret (negb b)) ;;
       if missing then
         ret (error_response "Missing required field: prompt" 400)
       else
         value <- py_getitem data "prompt" ;;
         project_description <- py_strip value ;;
         if negb (str_truthy project_description) then
           ret (error_response "Project description cannot be empty" 400)
         else if str_len project_description <? 10 then
           ret (error_response
                  "Project description must be at least 10 characters long" 400)
         else if str_len project_description >? 5000 then
           ret (error_response
                  "Project description must be less than 5000 characters" 400)
         else
           result <- recommend project_description ;;
           respond result)
    (fun e =>
       ret (error_response "An unexpected error occurred. Please try again." 500)).

End View.

(** The view as app.py wires it. *)
Definition generate (env : Env) (request : Request) : M HttpResponse :=
  generate_with (generate_architecture_recommendation env) request.

(** ** Notions used by the properties *)

(** No non-empty suffix of [p] overlaps an occurrence of [x]. *)
Fixpoint no_overlap (x p : string) : bool :=
  match p with
  | EmptyString => true
  | String _ p' => negb (startswith p x || startswith x p) && no_overlap x p'
  end.

(** The fixed head of the generator's error messages. *)
Definition ERROR_HEAD : string := "Error generating architecture recommendation: ".

(** The exception the [try] block meets in an answer of the client, if
    any: raised by the call, or by reading [text]. *)
Definition raised (r : call_result) : option exn :=
  match r with
  | CallRaises e => Some e
  | CallReturns (TextRaises e) => Some e
  | CallReturns _ => None
  end.

Definition NO_RESPONSE : outcome :=
  (false, None, Some "No response generated from Gemini API.", false).

(** The shape of every result: [success(text)] or
    [failure(message, rate_limited)], never a mixture. *)
Definition terminal (o : outcome) : Prop :=
  (exists text, o = (true, Some text, None, false)) \/
  (exists msg flag, o = (false, None, Some msg, flag)).

(** The results a [return] inside the loop can give. *)
Inductive loop_outcome : outcome -> Prop :=
| lo_success s : str_truthy s = true -> loop_outcome (true, Some s, None, false)
| lo_no_text : loop_outcome NO_RESPONSE
| lo_error msg : loop_outcome (false, None, Some (ERROR_HEAD ++ msg), is_rate msg).

Definition CONFIG_ERROR : HttpResponse :=
  error_response "Service configuration error. Please try again later." 500.

Definition RATE_LIMITED : HttpResponse :=
  {| body := [("status", PStr "error");
              ("error", PStr "Service temporarily unavailable due to high demand. Please try again in a few minutes.")];
     status := 429; headers := [("Retry-After", "60")] |}.

Definition UNAVAILABLE : HttpResponse :=
  error_response "Unable to generate architecture recommendation. Please try again." 503.

Definition UNEXPECTED : HttpResponse :=
  error_response "An unexpected error occurred. Please try again." 500.


(** A request that passes validation, with its trimmed description. *)
Definition valid_request (request : Request) (project_description : string) : Prop :=
  is_json request = true /\
  exists items s,
    get_json request = inr (PDict items) /\
    dict_get "prompt" items = Some (PStr s) /\
    project_description = str_strip s /\
    10 <= str_len project_description <= 5000.

(** The way the view classifies a failure message. *)
Definition classify (msg : string) : HttpResponse :=
  if str_in "API key" msg then CONFIG_ERROR
  else if str_in "quota" (str_lower msg) || str_in "rate" (str_lower msg)
          || str_in "429" msg
       then RATE_LIMITED
       else UNAVAILABLE.

Definition live (m : Model) : Env := {| DEMO_MODE := false; model := Some m |}.

(** Demo mode, as the module sets it up: no client. *)
Definition DEMO : Env := {| DEMO_MODE := true; model := None |}.

Definition CONFIG_MESSAGE : string :=
  "Gemini API is not configured. Please check your API key.".

(** The failure messages the generator can produce. *)
Definition generator_message (msg : string) : Prop :=
  msg = CONFIG_MESSAGE \/
  msg = "No response generated from Gemini API." \/
  exists e, msg = ERROR_HEAD ++ e.

(** Every call of the client ends in an exception that the generator
    takes for a rate limit. *)
Definition always_rate_limited (m : Model) : Prop :=
  forall w p, exists e, raised (m w p) = Some e /\ is_rate (exn_str e) = true.

(** A client whose every call raises [Exception(msg)]. *)
Definition always_raises (msg : string) : Model :=
  fun _ _ => CallRaises (Raise "Exception" msg).

Definition SAMPLE : string := "A web app for customer orders with auth and payments.".

(** A request with the JSON body [{"prompt": s}]. *)
Definition prompt_request (s : string) : Request :=
  {| is_json := true; get_json := inr (PDict [("prompt", PStr s)]) |}.

(** ['x' * 5001], the over-long prompt of the test suite. *)
Definition LONG_PROMPT : string := str_repeat "x" (Z.to_nat 5001).

(** ** Start-up configuration and the health check *)

(** [os.environ.get(key)] on the process environment, listed by its
    entries. *)
Fixpoint environ_get (key : string) (environ : list (string * string))
  : option string :=
  match environ with
  | [] => None
  | (k, v) :: rest => if (k =? key)%string then Some v else environ_get key rest
  end.

(** [os.environ.get(key, default)] *)
Definition environ_get_default (key default : string)
    (environ : list (string * string)) : string :=
  match environ_get key environ with
  | Some v => v
  | None => default
  end.

(** The module-level code of app.py that sets [DEMO_MODE] and [model],
    over the environment left by [load_dotenv] and the constructor of the
    client ([genai.configure(api_key=...)] then
    [genai.GenerativeModel(GEMINI_MODEL)]). *)
Definition startup (GenerativeModel : string -> string -> Model)
    (environ : list (string * string)) : Env :=
  let GEMINI_API_KEY := environ_get "GEMINI_API_KEY" environ in
  let demo_mode :=
    existsb (String.eqb (str_lower (environ_get_default "DEMO_MODE" "" environ)))
      ["true"; "1"; "yes"] in
  let GEMINI_MODEL := environ_get_default "GEMINI_MODEL" "gemini-2.0-flash" environ in
  {| DEMO_MODE := demo_mode;
     model :=
       match GEMINI_API_KEY with
       | Some key =>
           if str_truthy key && negb demo_mode
           then Some (GenerativeModel key GEMINI_MODEL)
           else None
       | None => None
       end |}.

(** The view [healthz]. *)
Definition healthz (env : Env) : M HttpResponse :=
  ret {| body := [("status", PStr "ok");
                  ("gemini_configured",
                   PBool (match model env with Some _ => true | None => false end));
                  ("demo_mode", PBool (DEMO_MODE env))];
         status := 200; headers := [] |}.

(** ** Notions used by the further properties *)

(** The events of [n] passes of the loop that end in a retry, the first
    at [attempt]: a call, then a sleep of [2 ^ attempt], and so on. *)
Fixpoint retried (prompt : string) (attempt : Z) (n : nat) : list event :=
  match n with
  | O => []
  | S n' =>
      GenerateContent prompt :: Sleep (2 ^ attempt) :: retried prompt (attempt + 1) n'
  end.

(** The result of the pass that ends the loop, by the client's answer. *)
Definition final_outcome (r : call_result) : outcome :=
  match r with
  | CallRaises e | CallReturns (TextRaises e) =>
      (false, None, Some (ERROR_HEAD ++ exn_str e), is_rate (exn_str e))
  | CallReturns TextNone => NO_RESPONSE
  | CallReturns (TextStr s) =>
      if str_truthy s then (true, Some s, None, false) else NO_RESPONSE
  end.

(** Seconds slept in a trace. *)
Definition total_sleep (w : World) : Z := fold_right Z.add 0 (sleeps w).

(** The text before and after the field of the prompt template. *)
Definition PROMPT_HEAD : string := "
You are an expert Google Cloud Architect. Analyze the following software project description and provide a comprehensive Google Cloud architecture recommendation.

Project Description: ".

Definition PROMPT_TAIL : string := "

Please provide:
1. Recommended Google Cloud services and their specific configurations
2. Architecture diagram description or component relationships
3. Scalability considerations and best practices
4. Cost optimization suggestions
5. Security recommendations
6. Deployment strategy

Focus on practical, actionable recommendations that follow Google Cloud best practices. Structure your response clearly with headings and bullet points for easy reading.
".

Definition NOT_JSON : HttpResponse :=
  error_response "Request must be JSON format" 400.

Definition MISSING_PROMPT : HttpResponse :=
  error_response "Missing required field: prompt" 400.

Definition EMPTY_PROMPT : HttpResponse :=
  error_response "Project description cannot be empty" 400.

Definition SHORT_PROMPT : HttpResponse :=
  error_response "Project description must be at least 10 characters long" 400.

Definition LONG_PROMPT_ERROR : HttpResponse :=
  error_response "Project description must be less than 5000 characters" 400.

(** [jsonify({'status': 'success', 'response': text}), 200] *)
Definition success_response (text : string) : HttpResponse :=
  {| body := [("status", PStr "success"); ("response", PStr text)];
     status := 200; headers := [] |}.

(** The shapes of the answers of /generate. *)
Definition answer (r : HttpResponse) : Prop :=
  (exists text, text <> "" /\ r = success_response text) \/
  In r [NOT_JSON; MISSING_PROMPT; EMPTY_PROMPT; SHORT_PROMPT; LONG_PROMPT_ERROR;
        CONFIG_ERROR; RATE_LIMITED; UNAVAILABLE; UNEXPECTED].

(** A client that is rate limited on its first call and answers with a
    text from then on. *)
Definition limited_once (text : string) : Model :=
  fun w _ =>
    match w with
    | [] => CallRaises (Raise "ResourceExhausted" "429 Resource has been exhausted")
    | _ => CallReturns (TextStr text)
    end.

(** * Properties *)

Example str_in_generated : str_in "rate" (str_lower "No response Generated") = true.
Proof. reflexivity. Qed.

Example format_ex :
  format "a {project_description} b" "web shop" = "a web shop b".
Proof. reflexivity. Qed.

Example format_template_ex :
  str_in "Project Description: a web shop for bicycles"
    (format ARCHITECTURE_PROMPT_TEMPLATE "a web shop for bicycles") = true
  /\ str_in "{" (format ARCHITECTURE_PROMPT_TEMPLATE "a web shop for bicycles") = false.
Proof. split; vm_compute; reflexivity. Qed.

Example str_strip_ex : str_strip ("  a b " ++ String (ascii_of_N 10) "") = "a b".
Proof. reflexivity. Qed.

(** ** Substring search *)

Section SubstringFacts.

Lemma startswith_nil (s : string) : startswith s "" = true.
Proof. destruct s; reflexivity. Qed.

Lemma str_in_cons (x : string) (c : ascii) (s : string) :
  str_in x (String c s) = startswith (String c s) x || str_in x s.
Proof. reflexivity. Qed.

Lemma str_in_nil (x : string) : str_in x "" = startswith "" x.
Proof. cbn [str_in]. apply orb_false_r. Qed.



(** When [t ++ m] starts with [x], one of [t] and [x] starts with the
    other. *)
Lemma startswith_app_overlap (m : string) :
  forall t x, startswith (t ++ m) x = true ->
              startswith t x || startswith x t = true.
Proof.
  induction t as [|b t IH]; intros x H.
  - rewrite (startswith_nil x). apply orb_true_r.
  - destruct x as [|a x]; [reflexivity|].
    simpl in H. apply andb_true_iff in H as [Hab Hx].
    simpl. rewrite (Ascii.eqb_sym b a), Hab. simpl. now apply IH.
Qed.

Lemma str_in_skip_prefix (x m : string) :
  forall p, no_overlap x p = true -> str_in x (p ++ m) = str_in x m.
Proof.
  induction p as [|c p IH]; intros H; [reflexivity|].
  cbn [no_overlap] in H. apply andb_true_iff in H as [Hc Hp].
  change (String c p ++ m) with (String c (p ++ m)).
  rewrite str_in_cons, (IH Hp).
  destruct (startswith (String c (p ++ m)) x) eqn:E; [|reflexivity].
  apply (startswith_app_overlap m (String c p) x) in E.
  rewrite E in Hc. discriminate.
Qed.

Lemma str_lower_app (a b : string) :
  str_lower (a ++ b) = str_lower a ++ str_lower b.
Proof. induction a as [|c a IH]; simpl; [reflexivity|now rewrite IH]. Qed.

Lemma startswith_lower :
  forall x s, startswith s x = true ->
              startswith (str_lower s) (str_lower x) = true.
Proof.
  induction x as [|a x IH]; intros s H; [reflexivity|].
  destruct s as [|b s]; simpl in *; [discriminate|].
  apply andb_true_iff in H as [Hab Hx].
  apply Ascii.eqb_eq in Hab. subst b.
  rewrite Ascii.eqb_refl. simpl. now apply IH.
Qed.

(** Lowering both sides keeps an occurrence. *)
Lemma str_in_lower (x : string) :
  forall s, str_in x s = true -> str_in (str_lower x) (str_lower s) = true.
Proof.
  induction s as [|b s IH]; intros H.
  - rewrite str_in_nil in H. change (str_lower "") with "".
    rewrite str_in_nil. now apply (startswith_lower x "").
  - rewrite str_in_cons in H. apply orb_true_iff in H as [H|H].
    + apply startswith_lower in H.
      change (str_lower (String b s)) with (String (lower_char b) (str_lower s)) in *.
      rewrite str_in_cons. now rewrite H.
    + change (str_lower (String b s)) with (String (lower_char b) (str_lower s)).
      rewrite str_in_cons, (IH H). apply orb_true_r.
Qed.

End SubstringFacts.

Lemma api_key_behind_head (msg : string) :
  str_in "API key" (ERROR_HEAD ++ msg) = str_in "API key" msg.
Proof. apply str_in_skip_prefix. vm_compute. reflexivity. Qed.

Lemma code_429_behind_head (msg : string) :
  str_in "429" (ERROR_HEAD ++ msg) = str_in "429" msg.
Proof. apply str_in_skip_prefix. vm_compute. reflexivity. Qed.

Lemma lower_behind_head (x msg : string) :
  no_overlap x (str_lower ERROR_HEAD) = true ->
  str_in x (str_lower (ERROR_HEAD ++ msg)) = str_in x (str_lower msg).
Proof. intros H. rewrite str_lower_app. now apply str_in_skip_prefix. Qed.

(** ** One iteration of the retry loop *)

Lemma loop_outcome_terminal (o : outcome) : loop_outcome o -> terminal o.
Proof. intros []; [left|right|right]; unfold NO_RESPONSE; eauto. Qed.

Section RetryLoop.

Variable m : Model.
Variable prompt : string.
Variable max_retries : Z.

Abbreviation loop fuel := (retry_loop fuel m prompt max_retries).

(** What one pass through the loop body does, by the client's answer. *)
Lemma retry_loop_step fuel attempt last_error w :
  attempt <= max_retries ->
  loop (S fuel) attempt last_error w =
    let w1 := (w ++ [GenerateContent prompt])%list in
    match m w prompt with
    | CallRaises e | CallReturns (TextRaises e) =>
        if is_rate (exn_str e) && (attempt <? max_retries) then
          loop fuel (attempt + 1) (Some (exn_str e)) (w1 ++ [Sleep (2 ^ attempt)])%list
        else
          (Val (Return (false, None, Some (ERROR_HEAD ++ exn_str e),
                        is_rate (exn_str e))), w1)
    | CallReturns TextNone => (Val (Return NO_RESPONSE), w1)
    | CallReturns (TextStr s) =>
        if str_truthy s then (Val (Return (true, Some s, None, false)), w1)
        else (Val (Return NO_RESPONSE), w1)
    end.
Proof.
  intros Hle. apply Z.leb_le in Hle.
  cbn [retry_loop]. rewrite Hle.
  unfold try_except, try_body, generate_content, bind. cbv beta.
  destruct (m w prompt) as [e | [e | | s]];
    cbv beta iota zeta delta [get_text raise ret bind sleep emit].
  - destruct (is_rate (exn_str e) && (attempt <? max_retries)); reflexivity.
  - destruct (is_rate (exn_str e) && (attempt <? max_retries)); reflexivity.
  - reflexivity.
  - destruct (str_truthy s); reflexivity.
Qed.

Lemma retry_loop_exit fuel attempt last_error w :
  max_retries < attempt ->
  loop (S fuel) attempt last_error w = (Val (Fallthrough last_error), w).
Proof.
  intros Hlt. cbn [retry_loop].
  destruct (attempt <=? max_retries) eqn:E; [apply Z.leb_le in E; lia|reflexivity].
Qed.

Lemma calls_app (w1 w2 : World) :
  calls (w1 ++ w2)%list = (calls w1 + calls w2)%nat.
Proof. unfold calls. now rewrite filter_app, length_app. Qed.

(** With fuel for the remaining attempts the loop ends, and it ends by a
    [return] of a terminal result exactly when it was entered. *)
Lemma retry_loop_total :
  forall fuel attempt last_error w,
    (Z.to_nat (max_retries - attempt) < fuel)%nat ->
    exists x w',
      loop fuel attempt last_error w = (Val x, w') /\
      match x with
      | Return o =>
          attempt <= max_retries /\ loop_outcome o /\
          (calls w < calls w')%nat /\
          Z.of_nat (calls w') <= Z.of_nat (calls w) + (max_retries - attempt) + 1
      | Fallthrough e => max_retries < attempt /\ e = last_error /\ w' = w
      end.
Proof.
  induction fuel as [|fuel IH]; intros attempt last_error w Hfuel; [lia|].
  destruct (Z.le_gt_cases attempt max_retries) as [Hle|Hgt].
  2:{ exists (Fallthrough last_error), w.
      rewrite retry_loop_exit by lia. repeat split; lia. }
  rewrite retry_loop_step by exact Hle. cbv zeta.
  assert (Hcalls : calls (w ++ [GenerateContent prompt])%list = S (calls w))
    by (rewrite calls_app; cbn; lia).
  assert (Hfail : forall e,
    exists x w',
      (if is_rate (exn_str e) && (attempt <? max_retries)
       then loop fuel (attempt + 1) (Some (exn_str e))
              ((w ++ [GenerateContent prompt]) ++ [Sleep (2 ^ attempt)])%list
       else (Val (Return (false, None, Some (ERROR_HEAD ++ exn_str e),
                          is_rate (exn_str e))),
             (w ++ [GenerateContent prompt])%list)) = (Val x, w') /\
      match x with
      | Return o =>
          attempt <= max_retries /\ loop_outcome o /\
          (calls w < calls w')%nat /\
          Z.of_nat (calls w') <= Z.of_nat (calls w) + (max_retries - attempt) + 1
      | Fallthrough e' => max_retries < attempt /\ e' = last_error /\ w' = w
      end).
  { intros e.
    destruct (is_rate (exn_str e) && (attempt <? max_retries)) eqn:E.
    - apply andb_true_iff in E as [_ Hlt]. apply Z.ltb_lt in Hlt.
      destruct (IH (attempt + 1) (Some (exn_str e))
                   ((w ++ [GenerateContent prompt]) ++ [Sleep (2 ^ attempt)])%list)
        as (x & w' & Hrun & Hx); [lia|].
      exists x, w'. split; [exact Hrun|].
      destruct x as [o|e']; [|lia].
      destruct Hx as (_ & Ho & Hlo & Hhi).
      rewrite calls_app, Hcalls in Hlo, Hhi.
      change (calls [Sleep (2 ^ attempt)]) with 0%nat in Hlo, Hhi.
      repeat split; try assumption; lia.
    - eexists _, _. split; [reflexivity|].
      rewrite Hcalls. repeat split; try lia. constructor. }
  destruct (m w prompt) as [e | [e | | s]]; try apply Hfail.
  - eexists _, _. split; [reflexivity|].
    rewrite Hcalls. repeat split; try lia. constructor.
  - destruct (str_truthy s) eqn:Es.
    + eexists _, _. split; [reflexivity|].
      rewrite Hcalls. repeat split; try lia. now constructor.
    + eexists _, _. split; [reflexivity|].
      rewrite Hcalls. repeat split; try lia. constructor.
Qed.


(** The same pass, when the [try] block meets an exception. *)
Lemma retry_loop_raised fuel attempt last_error w e :
  attempt <= max_retries ->
  raised (m w prompt) = Some e ->
  retry_loop (S fuel) m prompt max_retries attempt last_error w =
    if is_rate (exn_str e) && (attempt <? max_retries) then
      retry_loop fuel m prompt max_retries (attempt + 1) (Some (exn_str e))
        ((w ++ [GenerateContent prompt]) ++ [Sleep (2 ^ attempt)])%list
    else
      (Val (Return (false, None, Some (ERROR_HEAD ++ exn_str e),
                    is_rate (exn_str e))),
       (w ++ [GenerateContent prompt])%list).
Proof.
  intros Hle Hr. rewrite retry_loop_step by exact Hle. cbv zeta.
  destruct (m w prompt) as [e' | [e' | | s]]; cbn in Hr;
    try discriminate; now inversion Hr.
Qed.

End RetryLoop.

(** ** The view *)

Lemma respond_failure (text : option string) (msg : string) (w : World) :
  respond (false, text, Some msg) w = (Val (classify msg), w).
Proof.
  unfold respond, classify, bind, or_else, in_message, in_message_lower, bind, ret.
  destruct (str_in "API key" msg); [reflexivity|].
  destruct (str_in "quota" (str_lower msg)); [reflexivity|].
  destruct (str_in "rate" (str_lower msg)); [reflexivity|].
  destruct (str_in "429" msg); reflexivity.
Qed.

Lemma respond_success (text : string) (error : option string) (w : World) :
  respond (true, Some text, error) w =
    (Val {| body := [("status", PStr "success"); ("response", PStr text)];
            status := 200; headers := [] |}, w).
Proof. reflexivity. Qed.

Lemma dict_get_some_truthy key items v :
  dict_get key items = Some v -> truthy (PDict items) = true.
Proof. destruct items; [discriminate|reflexivity]. Qed.

Lemma str_len_truthy s : 0 < str_len s -> str_truthy s = true.
Proof. destruct s; [cbn; lia|reflexivity]. Qed.

(** The view up to the point where the prompt has been read and trimmed. *)
Lemma generate_with_prompt recommend request items s w :
  is_json request = true ->
  get_json request = inr (PDict items) ->
  dict_get "prompt" items = Some (PStr s) ->
  generate_with recommend request w =
    try_except
      (let project_description := str_strip s in
       if negb (str_truthy project_description) then
         ret (error_response "Project description cannot be empty" 400)
       else if str_len project_description <? 10 then
         ret (error_response
                "Project description must be at least 10 characters long" 400)
       else if str_len project_description >? 5000 then
         ret (error_response
                "Project description must be less than 5000 characters" 400)
       else
         result <- recommend project_description ;;
         respond result)
      (fun _ => ret UNEXPECTED) w.
Proof.
  intros Hj Hd Hp.
  unfold generate_with, try_except, request_get_json.
  rewrite Hj, Hd. cbn [negb].
  unfold or_else, bind at 1 2 3 4 5 6. unfold ret at 1 2.
  rewrite (dict_get_some_truthy _ _ _ Hp). cbn [negb py_in py_getitem].
  rewrite Hp. unfold ret at 1 2 3. cbn [negb py_strip]. unfold ret at 1.
  reflexivity.
Qed.

(** A valid request reaches the generator, whose result decides the
    response. *)
Lemma generate_with_valid recommend request project_description w :
  valid_request request project_description ->
  generate_with recommend request w =
    try_except (result <- recommend project_description ;; respond result)
      (fun _ => ret UNEXPECTED) w.
Proof.
  intros (Hj & items & s & Hd & Hp & -> & Hlo & Hhi).
  rewrite (generate_with_prompt _ _ _ _ _ Hj Hd Hp). cbv zeta.
  unfold try_except.
  rewrite str_len_truthy by lia. cbn [negb].
  destruct (str_len (str_strip s) <? 10) eqn:E1; [apply Z.ltb_lt in E1; lia|].
  destruct (str_len (str_strip s) >? 5000) eqn:E2; [|reflexivity].
  rewrite Z.gtb_ltb in E2. apply Z.ltb_lt in E2. lia.
Qed.

(** ** Validation *)

(** C2, amended. Validation of a POST to /generate stops at the first
    failed check, in the order of the code: a request whose content type
    is not JSON ([request.is_json] false), whatever its body; a JSON
    object without the key [prompt]; a prompt that is empty once trimmed;
    a trimmed prompt shorter than 10; a trimmed prompt longer than 5000.
    Each failure answers 400 with the message of that check, whatever the
    generator is, and leaves the world untouched: the generator is not
    called. *)
Theorem generate_validation_order
    (recommend : string -> M (bool * option string * option string))
    (request : Request) (w : World) :
  (is_json request = false ->
   generate_with recommend request w =
     (Val (error_response "Request must be JSON format" 400), w)) /\
  (forall items,
     is_json request = true ->
     get_json request = inr (PDict items) ->
     dict_get "prompt" items = None ->
     generate_with recommend request w =
       (Val (error_response "Missing required field: prompt" 400), w)) /\
  (forall items s,
     is_json request = true ->
     get_json request = inr (PDict items) ->
     dict_get "prompt" items = Some (PStr s) ->
     (str_strip s = "" ->
      generate_with recommend request w =
        (Val (error_response "Project description cannot be empty" 400), w)) /\
     (str_strip s <> "" -> str_len (str_strip s) < 10 ->
      generate_with recommend request w =
        (Val (error_response
                "Project description must be at least 10 characters long" 400), w)) /\
     (5000 < str_len (str_strip s) ->
      generate_with recommend request w =
        (Val (error_response
                "Project description must be less than 5000 characters" 400), w))) /\
  str_in "cannot be empty" "Project description cannot be empty" = true /\
  str_in "at least 10 characters"
    "Project description must be at least 10 characters long" = true /\
  str_in "less than 5000 characters"
    "Project description must be less than 5000 characters" = true.
Proof.
  split; [|split; [|split]].
  - intros Hj. unfold generate_with, try_except. now rewrite Hj.
  - intros items Hj Hd Hp.
    unfold generate_with, try_except, request_get_json.
    rewrite Hj, Hd. cbn [negb].
    unfold or_else, bind at 1 2 3. unfold ret at 1.
    destruct (truthy (PDict items)); cbn [negb]; [|reflexivity].
    cbn [py_in]. rewrite Hp. reflexivity.
  - intros items s Hj Hd Hp.
    rewrite (generate_with_prompt _ _ _ _ _ Hj Hd Hp). cbv zeta.
    unfold try_except. repeat split.
    + intros ->. reflexivity.
    + intros Hne Hlt.
      destruct (str_strip s) as [|c t] eqn:E; [congruence|].
      cbn [str_truthy String.eqb negb].
      apply Z.ltb_lt in Hlt. now rewrite Hlt.
    + intros Hgt.
      rewrite str_len_truthy by lia. cbn [negb].
      destruct (str_len (str_strip s) <? 10) eqn:E1; [apply Z.ltb_lt in E1; lia|].
      assert (E2 : (str_len (str_strip s) >? 5000) = true)
        by (rewrite Z.gtb_ltb; now apply Z.ltb_lt).
      now rewrite E2.
  - repeat split; reflexivity.
Qed.


(** A request declared as JSON whose body [get_json] cannot parse does
    not reach the validation messages: the exception goes to the
    catch-all handler. *)
Lemma generate_unparsable_body
    (recommend : string -> M (bool * option string * option string))
    (request : Request) (e : exn) (w : World) :
  is_json request = true ->
  get_json request = inl e ->
  generate_with recommend request w = (Val UNEXPECTED, w).
Proof.
  intros Hj Hd. unfold generate_with, try_except, request_get_json.
  now rewrite Hj, Hd.
Qed.

(** C2 as it stands fails on its first case: a body that is not JSON but
    is sent with a JSON content type passes the [is_json] test, makes
    [get_json] raise [BadRequest], and is answered by the catch-all
    handler with 500 and the generic message, not with 400 and
    "Request must be JSON format". *)
Lemma unparsable_json_body_gets_500 :
  generate DEMO
    {| is_json := true;
       get_json := inl (Raise "BadRequest"
                          "400 Bad Request: The browser (or proxy) sent a request that this server could not understand.") |}
    []
  = (Val {| body := [("status", PStr "error");
                     ("error", PStr "An unexpected error occurred. Please try again.")];
            status := 500; headers := [] |}, [])
  /\ error_response "An unexpected error occurred. Please try again." 500
     <> error_response "Request must be JSON format" 400.
Proof.
  split; [|discriminate].
  unfold generate. apply generate_unparsable_body with
    (e := Raise "BadRequest"
            "400 Bad Request: The browser (or proxy) sent a request that this server could not understand.");
    reflexivity.
Qed.

(** ** The generator *)

(** Every invocation ends in a value, which is a terminal result; its
    failure messages are of the three known kinds. *)
Lemma generator_total (env : Env) (prompt : string) (max_retries : Z) (w : World) :
  exists o w',
    _generate_with_retry env prompt max_retries w = (Val o, w') /\
    terminal o /\
    (forall t msg flag, o = (false, t, Some msg, flag) -> generator_message msg).
Proof.
  unfold _generate_with_retry.
  destruct (DEMO_MODE env).
  { eexists _, _. split; [reflexivity|]. split; [left; eauto|]. discriminate. }
  destruct (model env) as [m|].
  2:{ eexists _, _. split; [reflexivity|]. split; [right; eauto|].
      intros t msg flag [= _ <- _]. now left. }
  destruct (retry_loop_total m prompt max_retries (loop_fuel max_retries) 0 None w)
    as (x & w' & Hrun & Hx); [unfold loop_fuel; lia|].
  unfold bind. rewrite Hrun.
  destruct x as [o|e].
  - exists o, w'. split; [reflexivity|].
    destruct Hx as (_ & Ho & _). split; [now apply loop_outcome_terminal|].
    intros t msg flag ->.
    inversion Ho; subst; right; [now left|right; eexists; reflexivity].
  - eexists _, _. split; [reflexivity|]. split; [right; eauto|].
    intros t msg flag [= _ <- _]. right. right. eexists. reflexivity.
Qed.

(** C6. Under every behaviour of the external client, and for every
    prompt and every [max_retries], [_generate_with_retry] returns a value
    and raises nothing; the value is [success(text)] or
    [failure(message, rate_limited)]. *)
Theorem generate_with_retry_never_raises
    (env : Env) (prompt : string) (max_retries : Z) (w : World) :
  exists o w',
    _generate_with_retry env prompt max_retries w = (Val o, w') /\ terminal o.
Proof.
  destruct (generator_total env prompt max_retries w) as (o & w' & H & Ho & _).
  now exists o, w'.
Qed.

(** C10. For [max_retries >= 0] the loop needs no more than
    [max_retries + 1] passes, whatever budget it is given beyond that and
    whatever the client does: it makes between one and [max_retries + 1]
    calls and ends by a [return] inside its body, whose value is the
    result of the function; the statement after the loop is not reached. *)
Theorem retry_loop_returns_inside
    (m : Model) (prompt : string) (max_retries : Z) (w : World) :
  0 <= max_retries ->
  (forall fuel, (Z.to_nat max_retries < fuel)%nat ->
     exists o w',
       retry_loop fuel m prompt max_retries 0 None w = (Val (Return o), w') /\
       (calls w < calls w')%nat /\
       Z.of_nat (calls w') - Z.of_nat (calls w) <= max_retries + 1) /\
  (exists o w',
     retry_loop (loop_fuel max_retries) m prompt max_retries 0 None w
       = (Val (Return o), w') /\
     _generate_with_retry (live m) prompt max_retries w = (Val o, w')).
Proof.
  intros Hmax.
  assert (H : forall fuel, (Z.to_nat max_retries < fuel)%nat ->
     exists o w',
       retry_loop fuel m prompt max_retries 0 None w = (Val (Return o), w') /\
       (calls w < calls w')%nat /\
       Z.of_nat (calls w') - Z.of_nat (calls w) <= max_retries + 1).
  { intros fuel Hfuel.
    destruct (retry_loop_total m prompt max_retries fuel 0 None w)
      as (x & w' & Hrun & Hx); [lia|].
    destruct x as [o|e]; [|lia].
    exists o, w'. split; [exact Hrun|]. destruct Hx as (_ & _ & Hlo & Hhi).
    split; [exact Hlo|lia]. }
  split; [exact H|].
  destruct (H (loop_fuel max_retries)) as (o & w' & Hrun & _);
    [unfold loop_fuel; lia|].
  exists o, w'. split; [exact Hrun|].
  unfold _generate_with_retry, live, bind. cbn [DEMO_MODE model].
  now rewrite Hrun.
Qed.


(** C7. In demo mode the generator is a constant: for every prompt (and
    every client and [max_retries]) it succeeds with the canned text and
    touches nothing; /generate answers every valid request with 200 and
    that text, whose first line, after the line break that opens the
    literal, is the heading "# Google Cloud Architecture Recommendation". *)
Theorem demo_mode_constant (env : Env) :
  DEMO_MODE env = true ->
  (forall prompt max_retries w,
     _generate_with_retry env prompt max_retries w =
       (Val (true, Some demo_response, None, false), w)) /\
  (forall request project_description w,
     valid_request request project_description ->
     generate env request w =
       (Val {| body := [("status", PStr "success");
                        ("response", PStr demo_response)];
               status := 200; headers := [] |}, w)) /\
  startswith demo_response
    (String (ascii_of_N 10)
       ("# Google Cloud Architecture Recommendation" ++ String (ascii_of_N 10) ""))
  = true.
Proof.
  intros Hd.
  assert (H : forall prompt max_retries w,
     _generate_with_retry env prompt max_retries w =
       (Val (true, Some demo_response, None, false), w)).
  { intros. unfold _generate_with_retry. now rewrite Hd. }
  split; [exact H|]. split; [|vm_compute; reflexivity].
  intros request d w Hv. unfold generate.
  rewrite (generate_with_valid _ _ _ _ Hv).
  unfold try_except, bind, generate_architecture_recommendation,
    generate_architecture_recommendation_with, bind.
  rewrite H. unfold ret at 1. rewrite respond_success. reflexivity.
Qed.

(** ** Rate limits and other upstream errors *)

(** The generator on a client that is always rate limited: three calls,
    a sleep of 1 and of 2 between them, and the failure made from the
    last exception, flagged. *)
Lemma rate_limited_run (m : Model) (prompt : string) (w : World) :
  always_rate_limited m ->
  exists e,
    raised (m (w ++ [GenerateContent prompt; Sleep 1;
                     GenerateContent prompt; Sleep 2])%list prompt) = Some e /\
    is_rate (exn_str e) = true /\
    _generate_with_retry (live m) prompt 2 w =
      (Val (false, None, Some (ERROR_HEAD ++ exn_str e), true),
       (w ++ [GenerateContent prompt; Sleep 1; GenerateContent prompt; Sleep 2;
              GenerateContent prompt])%list).
Proof.
  intros H.
  destruct (H w prompt) as (e1 & R1 & I1).
  set (w1 := (w ++ [GenerateContent prompt; Sleep 1])%list).
  destruct (H w1 prompt) as (e2 & R2 & I2).
  set (w2 := (w ++ [GenerateContent prompt; Sleep 1;
                    GenerateContent prompt; Sleep 2])%list).
  destruct (H w2 prompt) as (e3 & R3 & I3).
  exists e3. split; [exact R3|]. split; [exact I3|].
  unfold _generate_with_retry, live, bind. cbn [DEMO_MODE model].
  change (loop_fuel 2) with 3%nat.
  rewrite (retry_loop_raised m prompt 2 _ 0 None w e1) by (lia || exact R1).
  rewrite I1. change (true && (0 <? 2)) with true. cbv iota.
  replace ((w ++ [GenerateContent prompt]) ++ [Sleep (2 ^ 0)])%list with w1
    by (unfold w1; now rewrite <- app_assoc).
  rewrite (retry_loop_raised m prompt 2 _ (0 + 1) _ w1 e2) by (lia || exact R2).
  rewrite I2. change (true && (0 + 1 <? 2)) with true. cbv iota.
  replace ((w1 ++ [GenerateContent prompt]) ++ [Sleep (2 ^ (0 + 1))])%list with w2
    by (unfold w1, w2; now rewrite <- !app_assoc).
  rewrite (retry_loop_raised m prompt 2 _ (0 + 1 + 1) _ w2 e3) by (lia || exact R3).
  rewrite I3. change (true && (0 + 1 + 1 <? 2)) with false. cbv iota.
  unfold w2. rewrite <- app_assoc. reflexivity.
Qed.

(** The view on a generator failure. *)
Lemma generate_on_failure (env : Env) request project_description w msg flag w' :
  valid_request request project_description ->
  _generate_with_retry env (format ARCHITECTURE_PROMPT_TEMPLATE project_description) 2 w
    = (Val (false, None, Some msg, flag), w') ->
  generate env request w = (Val (classify msg), w').
Proof.
  intros Hv Hrun. unfold generate.
  rewrite (generate_with_valid _ _ _ _ Hv).
  unfold try_except, bind, generate_architecture_recommendation,
    generate_architecture_recommendation_with, bind.
  rewrite Hrun. unfold ret at 1. rewrite respond_failure. reflexivity.
Qed.

Lemma classify_behind_head (msg : string) :
  classify (ERROR_HEAD ++ msg) = classify msg.
Proof.
  unfold classify.
  rewrite api_key_behind_head, code_429_behind_head.
  rewrite !lower_behind_head by (vm_compute; reflexivity).
  reflexivity.
Qed.

(** A message that is no rate limit for the generator holds none of the
    three markers the view looks for. *)
Lemma not_rate_no_marker (msg : string) :
  is_rate msg = false ->
  str_in "quota" (str_lower msg) || str_in "rate" (str_lower msg)
    || str_in "429" msg = false.
Proof.
  unfold is_rate, any_in. cbn [existsb]. intros H.
  destruct (str_in "429" msg) eqn:E.
  { apply str_in_lower in E. change (str_lower "429") with "429" in E.
    rewrite E in H. discriminate. }
  destruct (str_in "429" (str_lower msg)); [discriminate|].
  destruct (str_in "rate" (str_lower msg)); [discriminate|].
  destruct (str_in "quota" (str_lower msg)); [discriminate|reflexivity].
Qed.

(** C1, amended. When every call of the client raises an exception whose
    text holds, in any case, one of "429", "rate", "quota" and
    "too many requests", [_generate_with_retry] makes exactly three calls,
    sleeping 1 and then 2 before the two retries, and fails with the text
    of the last exception and the flag set.  /generate then answers 429
    with [Retry-After: 60] when that text holds "429" or, in any case,
    "quota" or "rate", and does not hold "API key"; when it holds
    "API key" the answer is the 500 of a configuration error. *)
Theorem rate_limit_three_attempts (m : Model) (w : World) :
  always_rate_limited m ->
  (forall prompt,
     exists e,
       raised (m (w ++ [GenerateContent prompt; Sleep 1;
                        GenerateContent prompt; Sleep 2])%list prompt) = Some e /\
       is_rate (exn_str e) = true /\
       _generate_with_retry (live m) prompt 2 w =
         (Val (false, None,
               Some ("Error generating architecture recommendation: " ++ exn_str e),
               true),
          (w ++ [GenerateContent prompt; Sleep 1; GenerateContent prompt; Sleep 2;
                 GenerateContent prompt])%list)) /\
  (forall request project_description,
     valid_request request project_description ->
     let prompt := format ARCHITECTURE_PROMPT_TEMPLATE project_description in
     let w' := (w ++ [GenerateContent prompt; Sleep 1; GenerateContent prompt;
                      Sleep 2; GenerateContent prompt])%list in
     exists e,
       raised (m (w ++ [GenerateContent prompt; Sleep 1;
                        GenerateContent prompt; Sleep 2])%list prompt) = Some e /\
       calls w' = (calls w + 3)%nat /\
       sleeps w' = (sleeps w ++ [1; 2])%list /\
       (str_in "API key" (exn_str e) = false ->
        str_in "quota" (str_lower (exn_str e))
          || str_in "rate" (str_lower (exn_str e))
          || str_in "429" (exn_str e) = true ->
        generate (live m) request w =
          (Val {| body := [("status", PStr "error");
                           ("error", PStr "Service temporarily unavailable due to high demand. Please try again in a few minutes.")];
                  status := 429; headers := [("Retry-After", "60")] |}, w')) /\
       (str_in "API key" (exn_str e) = true ->
        generate (live m) request w =
          (Val (error_response
                  "Service configuration error. Please try again later." 500), w'))).
Proof.
  intros H. split.
  - intros prompt. destruct (rate_limited_run m prompt w H) as (e & R & I & Hrun).
    exists e. auto.
  - intros request d Hv prompt w'.
    destruct (rate_limited_run m prompt w H) as (e & R & I & Hrun).
    exists e. split; [exact R|].
    split; [unfold w'; rewrite calls_app; cbn; lia|].
    split; [unfold w', sleeps; rewrite flat_map_app; reflexivity|].
    pose proof (generate_on_failure (live m) request d w _ _ _ Hv Hrun) as Hg.
    rewrite classify_behind_head in Hg. fold w' in Hg.
    rewrite Hg. unfold classify. split.
    + intros Hk Hq. now rewrite Hk, Hq.
    + intros Hk. now rewrite Hk.
Qed.

Lemma rate_limit_three_attempts_witness :
  exists r w',
    generate (live (always_raises "429 Quota exceeded")) (prompt_request SAMPLE) []
      = (Val r, w') /\
    status r = 429 /\ headers r = [("Retry-After", "60")] /\
    calls w' = 3%nat /\ sleeps w' = [1; 2].
Proof.
  assert (Hm : always_rate_limited (always_raises "429 Quota exceeded")).
  { intros w p. eexists. split; reflexivity. }
  assert (Hv : valid_request (prompt_request SAMPLE) SAMPLE).
  { split; [reflexivity|]. eexists _, _. repeat split; try reflexivity.
    all: vm_compute; discriminate. }
  destruct (proj2 (rate_limit_three_attempts
                     (always_raises "429 Quota exceeded") [] Hm) _ _ Hv)
    as (e & R & Hc & Hs & H429 & _).
  cbv zeta in *. injection R as <-.
  eexists _, _. split; [apply H429; reflexivity|].
  repeat split; assumption.
Defined.

(** C1 as it stands fails: an exception text that holds only
    "too many requests" is retried twice and then answered with 503, and
    one that holds "429" and "API key" is answered with 500. *)
Lemma rate_limit_not_always_429 :
  always_rate_limited (always_raises "Too Many Requests") /\
  always_rate_limited (always_raises "429 API key quota exceeded") /\
  valid_request (prompt_request SAMPLE) SAMPLE /\
  (exists r w',
     generate (live (always_raises "Too Many Requests")) (prompt_request SAMPLE) []
       = (Val r, w') /\
     calls w' = 3%nat /\ status r = 503 /\ headers r = []) /\
  (exists r w',
     generate (live (always_raises "429 API key quota exceeded"))
       (prompt_request SAMPLE) [] = (Val r, w') /\
     calls w' = 3%nat /\ status r = 500 /\ headers r = []).
Proof.
  split; [intros w p; eexists; split; reflexivity|].
  split; [intros w p; eexists; split; reflexivity|].
  split.
  { split; [reflexivity|]. eexists _, _. repeat split; try reflexivity.
    all: vm_compute; discriminate. }
  split; eexists _, _; (split; [vm_compute; reflexivity|]); repeat split; reflexivity.
Qed.

(** C4, amended. When the call raises an exception whose text holds none
    of the rate-limit markers, the generator makes that one call, sleeps
    never, and fails with "Error generating architecture recommendation: "
    followed by the text, the flag false.  /generate then answers 503,
    unless the text holds "API key": then it answers the 500 of a
    configuration error. *)
Theorem other_error_single_attempt (m : Model) (w : World) (e : exn) :
  is_rate (exn_str e) = false ->
  (forall prompt max_retries,
     0 <= max_retries ->
     raised (m w prompt) = Some e ->
     _generate_with_retry (live m) prompt max_retries w =
       (Val (false, None,
             Some ("Error generating architecture recommendation: " ++ exn_str e),
             false),
        (w ++ [GenerateContent prompt])%list)) /\
  (forall request project_description,
     valid_request request project_description ->
     let prompt := format ARCHITECTURE_PROMPT_TEMPLATE project_description in
     raised (m w prompt) = Some e ->
     (str_in "API key" (exn_str e) = false ->
      generate (live m) request w =
        (Val (error_response
                "Unable to generate architecture recommendation. Please try again."
                503),
         (w ++ [GenerateContent prompt])%list)) /\
     (str_in "API key" (exn_str e) = true ->
      generate (live m) request w =
        (Val (error_response
                "Service configuration error. Please try again later." 500),
         (w ++ [GenerateContent prompt])%list))).
Proof.
  intros Hrate.
  assert (Hgen : forall prompt max_retries,
     0 <= max_retries ->
     raised (m w prompt) = Some e ->
     _generate_with_retry (live m) prompt max_retries w =
       (Val (false, None, Some (ERROR_HEAD ++ exn_str e), false),
        (w ++ [GenerateContent prompt])%list)).
  { intros prompt max_retries Hmax R.
    unfold _generate_with_retry, live, bind, loop_fuel. cbn [DEMO_MODE model].
    rewrite (retry_loop_raised m prompt max_retries _ 0 None w e) by assumption.
    rewrite Hrate. reflexivity. }
  split; [exact Hgen|].
  intros request d Hv prompt R.
  pose proof (generate_on_failure (live m) request d w _ _ _ Hv
                (Hgen prompt 2 ltac:(lia) R)) as Hg.
  rewrite classify_behind_head in Hg. rewrite Hg. unfold classify.
  split; intros Hk; rewrite Hk; [|reflexivity].
  now rewrite (not_rate_no_marker _ Hrate).
Qed.

Lemma other_error_single_attempt_witness :
  _generate_with_retry (live (always_raises "API Error")) "p" 2 []
    = (Val (false, None,
            Some "Error generating architecture recommendation: API Error", false),
       [GenerateContent "p"]) /\
  exists r w',
    generate (live (always_raises "API Error")) (prompt_request SAMPLE) []
      = (Val r, w') /\
    status r = 503 /\ calls w' = 1%nat /\ sleeps w' = [].
Proof.
  assert (Hr : is_rate (exn_str (Raise "Exception" "API Error")) = false)
    by reflexivity.
  assert (Hv : valid_request (prompt_request SAMPLE) SAMPLE).
  { split; [reflexivity|]. eexists _, _. repeat split; try reflexivity.
    all: vm_compute; discriminate. }
  pose proof (other_error_single_attempt (always_raises "API Error") [] _ Hr)
    as [Hgen Hview].
  split.
  - apply (Hgen "p" 2); [lia|reflexivity].
  - destruct (Hview _ _ Hv eq_refl) as [H503 _].
    eexists _, _. split; [apply H503; reflexivity|].
    repeat split; reflexivity.
Defined.

(** C4 as it stands fails: an exception about an invalid API key is no
    rate limit, is tried once, and is answered with 500, not 503. *)
Lemma other_error_not_always_503 :
  is_rate "API key not valid. Please pass a valid API key." = false /\
  valid_request (prompt_request SAMPLE) SAMPLE /\
  exists r w',
    generate (live (always_raises "API key not valid. Please pass a valid API key."))
      (prompt_request SAMPLE) [] = (Val r, w') /\
    calls w' = 1%nat /\ sleeps w' = [] /\ status r = 500.
Proof.
  split; [reflexivity|]. split.
  { split; [reflexivity|]. eexists _, _. repeat split; try reflexivity.
    all: vm_compute; discriminate. }
  eexists _, _. split; [vm_compute; reflexivity|]. repeat split; reflexivity.
Qed.

(** ** Classification of failures *)




(** ** The rate-limit flag *)

(** C8. [generate_architecture_recommendation] drops the fourth component
    of the generator's result, so the flag cannot reach the response: two
    generators that return the same success bit, text and message with
    different flags give the same 3-tuple, and /generate answers both
    with the same status, headers and body. *)
Theorem rate_limited_flag_discarded
    (retry1 retry2 : string -> Z -> M outcome)
    (request : Request) (project_description : string) (w w' : World)
    (success : bool) (text error : option string) (flag1 flag2 : bool) :
  valid_request request project_description ->
  retry1 (format ARCHITECTURE_PROMPT_TEMPLATE project_description) 2 w
    = (Val (success, text, error, flag1), w') ->
  retry2 (format ARCHITECTURE_PROMPT_TEMPLATE project_description) 2 w
    = (Val (success, text, error, flag2), w') ->
  generate_architecture_recommendation_with retry1 project_description w
    = (Val (success, text, error), w') /\
  generate_architecture_recommendation_with retry2 project_description w
    = (Val (success, text, error), w') /\
  generate_with (generate_architecture_recommendation_with retry1) request w
    = generate_with (generate_architecture_recommendation_with retry2) request w.
Proof.
  intros Hv H1 H2.
  assert (G1 : generate_architecture_recommendation_with retry1 project_description w
               = (Val (success, text, error), w'))
    by (unfold generate_architecture_recommendation_with, bind; now rewrite H1).
  assert (G2 : generate_architecture_recommendation_with retry2 project_description w
               = (Val (success, text, error), w'))
    by (unfold generate_architecture_recommendation_with, bind; now rewrite H2).
  split; [exact G1|]. split; [exact G2|].
  rewrite !(generate_with_valid _ _ _ _ Hv).
  unfold try_except, bind. now rewrite G1, G2.
Qed.

Lemma rate_limited_flag_discarded_witness :
  generate_with
    (generate_architecture_recommendation_with
       (fun _ _ => ret (false, None, Some "quota exceeded", true)))
    (prompt_request SAMPLE) []
  = generate_with
      (generate_architecture_recommendation_with
         (fun _ _ => ret (false, None, Some "quota exceeded", false)))
      (prompt_request SAMPLE) [].
Proof.
  assert (Hv : valid_request (prompt_request SAMPLE) SAMPLE).
  { split; [reflexivity|]. eexists _, _. repeat split; try reflexivity.
    all: vm_compute; discriminate. }
  apply (rate_limited_flag_discarded
           (fun _ _ => ret (false, None, Some "quota exceeded", true))
           (fun _ _ => ret (false, None, Some "quota exceeded", false))
           (prompt_request SAMPLE) SAMPLE [] [] false None
           (Some "quota exceeded") true false Hv eq_refl eq_refl).
Defined.

(** ** Concrete runs *)

Lemma generate_validation_order_witness :
  generate DEMO {| is_json := false; get_json := inr PNone |} []
    = (Val (error_response "Request must be JSON format" 400), []) /\
  generate DEMO {| is_json := true; get_json := inr (PDict []) |} []
    = (Val (error_response "Missing required field: prompt" 400), []) /\
  generate DEMO (prompt_request "   ") []
    = (Val (error_response "Project description cannot be empty" 400), []) /\
  generate DEMO (prompt_request " short ") []
    = (Val (error_response
              "Project description must be at least 10 characters long" 400), []) /\
  generate DEMO (prompt_request LONG_PROMPT) []
    = (Val (error_response
              "Project description must be less than 5000 characters" 400), []).
Proof.
  split.
  { apply (proj1 (generate_validation_order
                    (generate_architecture_recommendation DEMO)
                    {| is_json := false; get_json := inr PNone |} [])).
    reflexivity. }
  split.
  { apply (proj1 (proj2 (generate_validation_order
                    (generate_architecture_recommendation DEMO)
                    {| is_json := true; get_json := inr (PDict []) |} [])) []);
      reflexivity. }
  split.
  { apply (proj1 (proj2 (proj2 (generate_validation_order
                    (generate_architecture_recommendation DEMO)
                    (prompt_request "   ") [])))
             [("prompt", PStr "   ")] "   " eq_refl eq_refl eq_refl).
    reflexivity. }
  split.
  { apply (proj1 (proj2 (proj2 (generate_validation_order
                    (generate_architecture_recommendation DEMO)
                    (prompt_request " short ") [])))
             [("prompt", PStr " short ")] " short " eq_refl eq_refl eq_refl).
    - vm_compute. discriminate.
    - vm_compute. reflexivity. }
  apply (proj1 (proj2 (proj2 (generate_validation_order
                    (generate_architecture_recommendation DEMO)
                    (prompt_request LONG_PROMPT) [])))
           [("prompt", PStr LONG_PROMPT)] LONG_PROMPT
           eq_refl eq_refl eq_refl).
  vm_compute. reflexivity.
Defined.


Lemma retry_loop_returns_inside_witness :
  exists o w',
    retry_loop 7 (always_raises "rate limit") "p" 2 0 None [] = (Val (Return o), w') /\
    (calls [] < calls w')%nat /\
    Z.of_nat (calls w') - Z.of_nat (calls []) <= 2 + 1.
Proof.
  apply (proj1 (retry_loop_returns_inside (always_raises "rate limit") "p" 2 []
                  ltac:(lia)) 7%nat).
  vm_compute. lia.
Defined.


Lemma demo_mode_constant_witness :
  generate DEMO (prompt_request SAMPLE) []
  = (Val {| body := [("status", PStr "success"); ("response", PStr demo_response)];
            status := 200; headers := [] |}, []).
Proof.
  apply (proj1 (proj2 (demo_mode_constant DEMO eq_refl))
           (prompt_request SAMPLE) SAMPLE).
  split; [reflexivity|]. eexists _, _. repeat split; try reflexivity.
  all: vm_compute; discriminate.
Defined.

(** * Further properties *)

(** ** The shape of a run of the generator *)

Example prompt_template_parts :
  ARCHITECTURE_PROMPT_TEMPLATE = PROMPT_HEAD ++ "{project_description}" ++ PROMPT_TAIL.
Proof. reflexivity. Qed.

Lemma calls_retried (prompt : string) (n : nat) :
  forall attempt, calls (retried prompt attempt n) = n.
Proof.
  induction n as [|n IH]; intros attempt; [reflexivity|].
  change (calls (retried prompt attempt (S n)))
    with (S (calls (retried prompt (attempt + 1) n))).
  now rewrite IH.
Qed.

Lemma total_sleep_retried (prompt : string) (n : nat) :
  forall attempt,
    0 <= attempt ->
    total_sleep (retried prompt attempt n) = 2 ^ attempt * (2 ^ Z.of_nat n - 1).
Proof.
  induction n as [|n IH]; intros attempt Ha.
  - cbn. lia.
  - change (total_sleep (retried prompt attempt (S n)))
      with (2 ^ attempt + total_sleep (retried prompt (attempt + 1) n)).
    rewrite IH by lia.
    rewrite Z.pow_add_r by lia. change (2 ^ 1) with 2.
    rewrite Nat2Z.inj_succ, Z.pow_succ_r by lia. ring.
Qed.

Lemma sleeps_app (w1 w2 : World) :
  sleeps (w1 ++ w2)%list = (sleeps w1 ++ sleeps w2)%list.
Proof. unfold sleeps. apply flat_map_app. Qed.

Lemma total_sleep_app (w1 w2 : World) :
  total_sleep (w1 ++ w2)%list = total_sleep w1 + total_sleep w2.
Proof.
  unfold total_sleep. rewrite sleeps_app.
  induction (sleeps w1) as [|d l IH]; cbn; [reflexivity|]. rewrite IH. lia.
Qed.

(** A run of the loop: the first [n] answers are exceptions taken for a
    rate limit, each followed by a sleep; the next answer ends the loop
    and decides the result; it is a rate limit only when no retry is
    left. *)
Lemma retry_loop_run (m : Model) (prompt : string) (max_retries : Z) :
  forall fuel attempt last_error w,
    attempt <= max_retries ->
    (Z.to_nat (max_retries - attempt) < fuel)%nat ->
    exists n,
      Z.of_nat n <= max_retries - attempt /\
      (forall i, (i < n)%nat ->
         exists e, raised (m (w ++ retried prompt attempt i)%list prompt) = Some e /\
                   is_rate (exn_str e) = true) /\
      (forall e, raised (m (w ++ retried prompt attempt n)%list prompt) = Some e ->
                 is_rate (exn_str e) = true ->
                 Z.of_nat n = max_retries - attempt) /\
      retry_loop fuel m prompt max_retries attempt last_error w =
        (Val (Return (final_outcome (m (w ++ retried prompt attempt n)%list prompt))),
         (w ++ retried prompt attempt n ++ [GenerateContent prompt])%list).
Proof.
  induction fuel as [|fuel IH]; intros attempt last_error w Hle Hfuel; [lia|].
  rewrite retry_loop_step by exact Hle. cbv zeta.
  assert (Hstop : forall o,
    final_outcome (m w prompt) = o ->
    (forall e, raised (m w prompt) = Some e -> is_rate (exn_str e) = true ->
               attempt = max_retries) ->
    exists n,
      Z.of_nat n <= max_retries - attempt /\
      (forall i, (i < n)%nat ->
         exists e, raised (m (w ++ retried prompt attempt i)%list prompt) = Some e /\
                   is_rate (exn_str e) = true) /\
      (forall e, raised (m (w ++ retried prompt attempt n)%list prompt) = Some e ->
                 is_rate (exn_str e) = true ->
                 Z.of_nat n = max_retries - attempt) /\
      (Val (Return o), (w ++ [GenerateContent prompt])%list) =
        (Val (Return (final_outcome (m (w ++ retried prompt attempt n)%list prompt))),
         (w ++ retried prompt attempt n ++ [GenerateContent prompt])%list)).
  { intros o Ho Hlast. exists 0%nat. cbn [retried app]. rewrite app_nil_r.
    split; [lia|]. split; [intros i Hi; lia|].
    split; [intros e R I; specialize (Hlast e R I); lia|]. now rewrite Ho. }
  assert (Hexn : forall e,
    raised (m w prompt) = Some e ->
    final_outcome (m w prompt)
      = (false, None, Some (ERROR_HEAD ++ exn_str e), is_rate (exn_str e)) ->
    exists n,
      Z.of_nat n <= max_retries - attempt /\
      (forall i, (i < n)%nat ->
         exists e, raised (m (w ++ retried prompt attempt i)%list prompt) = Some e /\
                   is_rate (exn_str e) = true) /\
      (forall e, raised (m (w ++ retried prompt attempt n)%list prompt) = Some e ->
                 is_rate (exn_str e) = true ->
                 Z.of_nat n = max_retries - attempt) /\
      (if is_rate (exn_str e) && (attempt <? max_retries)
       then retry_loop fuel m prompt max_retries (attempt + 1) (Some (exn_str e))
              ((w ++ [GenerateContent prompt]) ++ [Sleep (2 ^ attempt)])%list
       else (Val (Return (false, None, Some (ERROR_HEAD ++ exn_str e),
                          is_rate (exn_str e))),
             (w ++ [GenerateContent prompt])%list)) =
        (Val (Return (final_outcome (m (w ++ retried prompt attempt n)%list prompt))),
         (w ++ retried prompt attempt n ++ [GenerateContent prompt])%list)).
  { intros e R Hfin.
    destruct (is_rate (exn_str e) && (attempt <? max_retries)) eqn:E.
    - apply andb_true_iff in E as [I Hlt]. apply Z.ltb_lt in Hlt.
      set (w1 := ((w ++ [GenerateContent prompt]) ++ [Sleep (2 ^ attempt)])%list).
      assert (Hw1 : forall k,
        (w1 ++ retried prompt (attempt + 1) k)%list
          = (w ++ retried prompt attempt (S k))%list).
      { intros k. unfold w1. cbn [retried]. now rewrite <- !app_assoc. }
      destruct (IH (attempt + 1) (Some (exn_str e)) w1) as (n & Hn & Hpre & Hlast & Hrun);
        [lia|lia|].
      exists (S n). split; [lia|]. split; [|split].
      + intros [|i] Hi.
        * cbn [retried]. rewrite app_nil_r. eauto.
        * rewrite <- Hw1. apply Hpre. lia.
      + intros e' R' I'. rewrite <- Hw1 in R'. specialize (Hlast e' R' I'). lia.
      + rewrite Hrun, !app_assoc, Hw1. reflexivity.
    - apply Hstop; [exact Hfin|].
      intros e' R' I'. rewrite R in R'. injection R' as <-.
      rewrite I' in E. cbn in E. apply Z.ltb_ge in E. lia. }
  destruct (m w prompt) as [e | [e | | s]] eqn:Em.
  - apply Hexn; reflexivity.
  - apply Hexn; reflexivity.
  - apply Hstop; [reflexivity|]. discriminate.
  - destruct (str_truthy s) eqn:Es.
    + apply Hstop; [cbn; now rewrite Es|]. discriminate.
    + apply Hstop; [cbn; now rewrite Es|]. discriminate.
Qed.

(** The generator on a configured client, as one run of the loop. *)
Lemma live_run (m : Model) (prompt : string) (max_retries : Z) (w : World) :
  0 <= max_retries ->
  exists n,
    Z.of_nat n <= max_retries /\
    (forall i, (i < n)%nat ->
       exists e, raised (m (w ++ retried prompt 0 i)%list prompt) = Some e /\
                 is_rate (exn_str e) = true) /\
    (forall e, raised (m (w ++ retried prompt 0 n)%list prompt) = Some e ->
               is_rate (exn_str e) = true -> Z.of_nat n = max_retries) /\
    _generate_with_retry (live m) prompt max_retries w =
      (Val (final_outcome (m (w ++ retried prompt 0 n)%list prompt)),
       (w ++ retried prompt 0 n ++ [GenerateContent prompt])%list).
Proof.
  intros Hmax.
  destruct (retry_loop_run m prompt max_retries (loop_fuel max_retries) 0 None w)
    as (n & Hn & Hpre & Hlast & Hrun); [lia|unfold loop_fuel; lia|].
  exists n. split; [lia|]. split; [exact Hpre|].
  split; [intros e R I; specialize (Hlast e R I); lia|].
  unfold _generate_with_retry, live, bind. cbn [DEMO_MODE model].
  now rewrite Hrun.
Qed.

Lemma final_outcome_flag (r : call_result) success text error :
  final_outcome r = (success, text, error, true) ->
  exists e, raised r = Some e /\ is_rate (exn_str e) = true /\
            success = false /\ error = Some (ERROR_HEAD ++ exn_str e).
Proof.
  destruct r as [e | [e | | s]]; cbn.
  - intros [= <- _ <- I]. eauto.
  - intros [= <- _ <- I]. eauto.
  - discriminate.
  - destruct (str_truthy s); discriminate.
Qed.

Lemma final_outcome_rate (r : call_result) (e : exn) :
  raised r = Some e ->
  final_outcome r = (false, None, Some (ERROR_HEAD ++ exn_str e), is_rate (exn_str e)).
Proof.
  destruct r as [e' | [e' | | s]]; cbn; try discriminate; now intros [= ->].
Qed.

(** With no retry allowed below zero, the loop is not entered. *)
Lemma negative_run (m : Model) (prompt : string) (max_retries : Z) (w : World) :
  max_retries < 0 ->
  _generate_with_retry (live m) prompt max_retries w =
    (Val (false, None, Some (ERROR_HEAD ++ "Unknown error"), false), w).
Proof.
  intros Hneg. unfold _generate_with_retry, live, bind, loop_fuel.
  cbn [DEMO_MODE model]. now rewrite retry_loop_exit by lia.
Qed.

(** ** The view, case by case *)

(** The view on a JSON object, by the value under [prompt]. *)
Lemma generate_with_object recommend request items w :
  is_json request = true ->
  get_json request = inr (PDict items) ->
  generate_with recommend request w =
    match dict_get "prompt" items with
    | None => (Val MISSING_PROMPT, w)
    | Some (PStr s) =>
        if negb (str_truthy (str_strip s)) then (Val EMPTY_PROMPT, w)
        else if str_len (str_strip s) <? 10 then (Val SHORT_PROMPT, w)
        else if str_len (str_strip s) >? 5000 then (Val LONG_PROMPT_ERROR, w)
        else try_except (result <- recommend (str_strip s) ;; respond result)
               (fun _ => ret UNEXPECTED) w
    | Some _ => (Val UNEXPECTED, w)
    end.
Proof.
  intros Hj Hd.
  destruct (dict_get "prompt" items) as [v|] eqn:Hp.
  - destruct v;
      try (unfold generate_with, try_except, request_get_json;
           rewrite Hj, Hd; cbn [negb];
           unfold or_else, bind at 1 2 3 4 5 6; unfold ret at 1 2;
           rewrite (dict_get_some_truthy _ _ _ Hp); cbn [negb py_in py_getitem];
           rewrite Hp; reflexivity).
    rewrite (generate_with_prompt _ _ _ _ _ Hj Hd Hp). cbv zeta.
    unfold try_except.
    destruct (negb (str_truthy (str_strip s))); [reflexivity|].
    destruct (str_len (str_strip s) <? 10); [reflexivity|].
    destruct (str_len (str_strip s) >? 5000); reflexivity.
  - unfold generate_with, try_except, request_get_json.
    rewrite Hj, Hd. cbn [negb].
    unfold or_else, bind at 1 2 3. unfold ret at 1.
    destruct (truthy (PDict items)); cbn [negb]; [|reflexivity].
    cbn [py_in]. rewrite Hp. reflexivity.
Qed.

(** The view on a JSON document that is not an object. *)
Lemma generate_with_non_object recommend request data w :
  is_json request = true ->
  get_json request = inr data ->
  (forall items, data <> PDict items) ->
  generate_with recommend request w =
    (Val (if negb (truthy data) then MISSING_PROMPT
          else match data with
               | PList l =>
                   if existsb (fun x => match x with
                                        | PStr s => (s =? "prompt")%string
                                        | _ => false
                                        end) l
                   then UNEXPECTED else MISSING_PROMPT
               | PStr s => if str_in "prompt" s then UNEXPECTED else MISSING_PROMPT
               | _ => UNEXPECTED
               end), w).
Proof.
  intros Hj Hd Hno.
  unfold generate_with, try_except, request_get_json.
  rewrite Hj, Hd. cbn [negb].
  unfold or_else, bind at 1 2 3. unfold ret at 1.
  destruct data as [ | b | n | f | s | l | items];
    try (now destruct (Hno items)); cbn [truthy].
  - reflexivity.
  - destruct b; reflexivity.
  - destruct (negb (n =? 0)); reflexivity.
  - destruct (negb (PrimFloat.eqb f 0)); reflexivity.
  - destruct (str_truthy s); cbn [negb]; [|reflexivity].
    cbn [py_in]. unfold ret at 1.
    destruct (str_in "prompt" s); reflexivity.
  - destruct l as [|x l]; [reflexivity|]. cbn [negb py_in]. unfold ret at 1.
    destruct (existsb _ (x :: l)); reflexivity.
Qed.

Lemma final_outcome_shape (r : call_result) :
  (exists s, s <> "" /\ final_outcome r = (true, Some s, None, false)) \/
  (exists msg flag, final_outcome r = (false, None, Some msg, flag)).
Proof.
  destruct r as [e | [e | | s]]; cbn; try (right; eauto; fail).
  - right. unfold NO_RESPONSE. eauto.
  - destruct (str_truthy s) eqn:Es.
    + left. exists s. split; [|reflexivity]. intros ->. discriminate.
    + right. unfold NO_RESPONSE. eauto.
Qed.

(** Every run of the generator: a value of one of the two shapes, a
    success never with an empty text, and for effects either none or
    [n + 1] calls with the same prompt and the sleeps 1, 2, ... between
    them, [n] no more than [max_retries]. *)
Lemma generator_run (env : Env) (prompt : string) (max_retries : Z) (w : World) :
  exists o w',
    _generate_with_retry env prompt max_retries w = (Val o, w') /\
    ((exists s, s <> "" /\ o = (true, Some s, None, false)) \/
     (exists msg flag, o = (false, None, Some msg, flag))) /\
    (w' = w \/
     exists n, Z.of_nat n <= max_retries /\
               w' = (w ++ retried prompt 0 n ++ [GenerateContent prompt])%list).
Proof.
  destruct env as [demo [m|]]; destruct demo.
  - eexists _, _. split; [reflexivity|]. split; [|now left].
    left. exists demo_response. split; [discriminate|reflexivity].
  - change {| DEMO_MODE := false; model := Some m |} with (live m).
    destruct (Z.lt_ge_cases max_retries 0) as [Hneg|Hpos].
    + rewrite negative_run by exact Hneg.
      eexists _, _. split; [reflexivity|]. split; [right; eauto|now left].
    + destruct (live_run m prompt max_retries w Hpos) as (n & Hn & _ & _ & Hrun).
      rewrite Hrun. eexists _, _. split; [reflexivity|].
      split; [apply final_outcome_shape|]. right. eauto.
  - eexists _, _. split; [reflexivity|]. split; [|now left].
    left. exists demo_response. split; [discriminate|reflexivity].
  - eexists _, _. split; [reflexivity|]. split; [right; eauto|now left].
Qed.

Lemma classify_answer (msg : string) :
  In (classify msg) [CONFIG_ERROR; RATE_LIMITED; UNAVAILABLE].
Proof.
  unfold classify.
  destruct (str_in "API key" msg); [now left|].
  destruct (str_in "quota" (str_lower msg) || str_in "rate" (str_lower msg)
            || str_in "429" msg); cbn; auto.
Qed.

(** Every run of the view: it answers, with one of the known answers,
    and it reaches the client only for a request that passed validation,
    with the template formatted on the trimmed prompt. *)
Lemma generate_run (env : Env) (request : Request) (w : World) :
  exists r w',
    generate env request w = (Val r, w') /\
    answer r /\
    ((w' = w /\ (status r = 400 -> forall d, ~ valid_request request d)) \/
     exists d,
       valid_request request d /\ status r <> 400 /\
       (w' = w \/
        exists n, (n <= 2)%nat /\
          w' = (w ++ retried (format ARCHITECTURE_PROMPT_TEMPLATE d) 0 n
                  ++ [GenerateContent (format ARCHITECTURE_PROMPT_TEMPLATE d)])%list)).
Proof.
  assert (Hfixed : forall r,
    In r [NOT_JSON; MISSING_PROMPT; EMPTY_PROMPT; SHORT_PROMPT; LONG_PROMPT_ERROR;
          UNEXPECTED] -> answer r).
  { intros r Hr. right. cbn in Hr |- *. intuition. }
  assert (Hinvalid : forall r,
    generate env request w = (Val r, w) ->
    In r [NOT_JSON; MISSING_PROMPT; EMPTY_PROMPT; SHORT_PROMPT; LONG_PROMPT_ERROR;
          UNEXPECTED] ->
    (forall d, ~ valid_request request d) ->
    exists r w',
      generate env request w = (Val r, w') /\ answer r /\
      ((w' = w /\ (status r = 400 -> forall d, ~ valid_request request d)) \/
       exists d,
         valid_request request d /\ status r <> 400 /\
         (w' = w \/
          exists n, (n <= 2)%nat /\
            w' = (w ++ retried (format ARCHITECTURE_PROMPT_TEMPLATE d) 0 n
                    ++ [GenerateContent (format ARCHITECTURE_PROMPT_TEMPLATE d)])%list))).
  { intros r Hg Hr Hno. exists r, w. split; [exact Hg|]. split; [now apply Hfixed|].
    left. auto. }
  unfold generate in *.
  destruct (is_json request) eqn:Hj.
  2:{ apply Hinvalid with NOT_JSON.
      - unfold generate_with, try_except. now rewrite Hj.
      - now left.
      - intros d [Hj' _]. congruence. }
  destruct (get_json request) as [e|data] eqn:Hd.
  { apply Hinvalid with UNEXPECTED.
    - now apply generate_unparsable_body with e.
    - cbn. auto 10.
    - intros d (_ & items & s & Hd' & _). congruence. }
  assert (Hnon : (forall items, data <> PDict items) ->
    exists r, generate_with (generate_architecture_recommendation env) request w
                = (Val r, w) /\
              In r [NOT_JSON; MISSING_PROMPT; EMPTY_PROMPT; SHORT_PROMPT;
                    LONG_PROMPT_ERROR; UNEXPECTED]).
  { intros Hno. rewrite (generate_with_non_object _ _ _ _ Hj Hd Hno).
    eexists. split; [reflexivity|].
    destruct (negb (truthy data)); [cbn; auto|].
    destruct data; cbn; auto 10.
    - destruct (str_in "prompt" s); cbn; auto 10.
    - destruct (existsb _ l); cbn; auto 10. }
  destruct data as [ | b | z | f | s | l | items].
  1-6: (destruct Hnon as (r & Hg & Hr); [discriminate|];
        apply Hinvalid with r; [exact Hg|exact Hr|];
        intros d (_ & items & s' & Hd' & _); congruence).
  rewrite (generate_with_object _ _ _ _ Hj Hd) in *.
  destruct (dict_get "prompt" items) as [v|] eqn:Hp.
  2:{ apply Hinvalid with MISSING_PROMPT; [reflexivity|cbn; auto|].
      intros d (_ & items' & s' & Hd' & Hp' & _). congruence. }
  assert (Hval : forall d, valid_request request d ->
                           exists s, v = PStr s /\ d = str_strip s
                                     /\ 10 <= str_len d <= 5000).
  { intros d (_ & items' & s' & Hd' & Hp' & Hs & Hlen).
    rewrite Hd in Hd'. injection Hd' as <-. rewrite Hp in Hp'. injection Hp' as ->.
    eauto. }
  destruct v as [ | b | z | f | s | l | items'].
  1-4,6-7: (apply Hinvalid with UNEXPECTED; [reflexivity|cbn; auto 10|];
            intros d Hv; destruct (Hval d Hv) as (s' & Hs' & _); discriminate).
  destruct (str_truthy (str_strip s)) eqn:Et; cbn [negb].
  2:{ apply Hinvalid with EMPTY_PROMPT; [reflexivity|cbn; auto|].
      intros d Hv. destruct (Hval d Hv) as (s' & [= <-] & -> & Hlen & _).
      rewrite str_len_truthy in Et by lia. discriminate. }
  destruct (str_len (str_strip s) <? 10) eqn:E1.
  { apply Hinvalid with SHORT_PROMPT; [reflexivity|cbn; auto|].
    intros d Hv. destruct (Hval d Hv) as (s' & [= <-] & -> & Hlen & _).
    apply Z.ltb_lt in E1. lia. }
  destruct (str_len (str_strip s) >? 5000) eqn:E2.
  { apply Hinvalid with LONG_PROMPT_ERROR; [reflexivity|cbn; auto 10|].
    intros d Hv. destruct (Hval d Hv) as (s' & [= <-] & -> & _ & Hlen).
    rewrite Z.gtb_ltb in E2. apply Z.ltb_lt in E2. lia. }
  apply Z.ltb_ge in E1. rewrite Z.gtb_ltb in E2. apply Z.ltb_ge in E2.
  assert (Hv : valid_request request (str_strip s)).
  { split; [exact Hj|]. exists items, s. auto. }
  clear Hinvalid Hnon.
  destruct (generator_run env (format ARCHITECTURE_PROMPT_TEMPLATE (str_strip s)) 2 w)
    as (o & w' & Hrun & Ho & Hw).
  unfold try_except, bind, generate_architecture_recommendation,
    generate_architecture_recommendation_with, bind.
  rewrite Hrun.
  assert (Hshape :
    w' = w \/
    exists n, (n <= 2)%nat /\
      w' = (w ++ retried (format ARCHITECTURE_PROMPT_TEMPLATE (str_strip s)) 0 n
              ++ [GenerateContent (format ARCHITECTURE_PROMPT_TEMPLATE (str_strip s))])%list).
  { destruct Hw as [->|(n & Hn & ->)]; [now left|]. right. exists n. split; [lia|reflexivity]. }
  destruct Ho as [(t & Ht & ->)|(msg & flag & ->)]; unfold ret at 1.
  - rewrite respond_success. exists (success_response t), w'.
    split; [reflexivity|]. split; [left; eauto|].
    right. exists (str_strip s). split; [exact Hv|]. split; [discriminate|exact Hshape].
  - rewrite respond_failure. exists (classify msg), w'.
    split; [reflexivity|]. split.
    + right. pose proof (classify_answer msg) as Hc. cbn in Hc |- *. intuition.
    + right. exists (str_strip s). split; [exact Hv|]. split; [|exact Hshape].
      pose proof (classify_answer msg) as Hc. cbn in Hc.
      destruct Hc as [<-|[<-|[<-|[]]]]; discriminate.
Qed.

(** ** Runs of the generator *)

(** X1. When the first [k] calls are taken for rate limits, [k] no more
    than [max_retries], and the next call returns a non-empty text, the
    generator succeeds with that text after [k + 1] calls and the sleeps
    1, 2, ..., and /generate (where [k <= 2]) answers 200 with the text. *)
Theorem retries_then_text
    (m : Model) (w : World) (k : nat) (text : string) :
  text <> "" ->
  (forall prompt max_retries,
     Z.of_nat k <= max_retries ->
     (forall i, (i < k)%nat ->
        exists e, raised (m (w ++ retried prompt 0 i)%list prompt) = Some e /\
                  is_rate (exn_str e) = true) ->
     m (w ++ retried prompt 0 k)%list prompt = CallReturns (TextStr text) ->
     _generate_with_retry (live m) prompt max_retries w =
       (Val (true, Some text, None, false),
        (w ++ retried prompt 0 k ++ [GenerateContent prompt])%list)) /\
  (forall request project_description,
     valid_request request project_description ->
     let prompt := format ARCHITECTURE_PROMPT_TEMPLATE project_description in
     (k <= 2)%nat ->
     (forall i, (i < k)%nat ->
        exists e, raised (m (w ++ retried prompt 0 i)%list prompt) = Some e /\
                  is_rate (exn_str e) = true) ->
     m (w ++ retried prompt 0 k)%list prompt = CallReturns (TextStr text) ->
     generate (live m) request w =
       (Val {| body := [("status", PStr "success"); ("response", PStr text)];
               status := 200; headers := [] |},
        (w ++ retried prompt 0 k ++ [GenerateContent prompt])%list)).
Proof.
  intros Htext.
  assert (Hgen : forall prompt max_retries,
     Z.of_nat k <= max_retries ->
     (forall i, (i < k)%nat ->
        exists e, raised (m (w ++ retried prompt 0 i)%list prompt) = Some e /\
                  is_rate (exn_str e) = true) ->
     m (w ++ retried prompt 0 k)%list prompt = CallReturns (TextStr text) ->
     _generate_with_retry (live m) prompt max_retries w =
       (Val (true, Some text, None, false),
        (w ++ retried prompt 0 k ++ [GenerateContent prompt])%list)).
  { intros prompt max_retries Hk Hpre Hret.
    destruct (live_run m prompt max_retries w ltac:(lia))
      as (n & Hn & Hpre' & Hlast & Hrun).
    assert (n = k) as ->.
    { destruct (Nat.lt_trichotomy n k) as [Hlt|[Heq|Hgt]]; [|exact Heq|].
      - destruct (Hpre n Hlt) as (e & R & I). specialize (Hlast e R I). lia.
      - destruct (Hpre' k Hgt) as (e & R & _). rewrite Hret in R. discriminate. }
    rewrite Hrun, Hret. cbn [final_outcome].
    destruct text; [congruence|reflexivity]. }
  split; [exact Hgen|].
  intros request d Hv prompt Hk Hpre Hret. unfold generate.
  rewrite (generate_with_valid _ _ _ _ Hv).
  unfold try_except, bind, generate_architecture_recommendation,
    generate_architecture_recommendation_with, bind.
  fold prompt. rewrite (Hgen prompt 2 ltac:(lia) Hpre Hret).
  unfold ret at 1. now rewrite respond_success.
Qed.

Lemma retries_then_text_witness :
  generate (live (limited_once "Use Cloud Run.")) (prompt_request SAMPLE) [] =
    (Val (success_response "Use Cloud Run."),
     [GenerateContent (format ARCHITECTURE_PROMPT_TEMPLATE SAMPLE); Sleep 1;
      GenerateContent (format ARCHITECTURE_PROMPT_TEMPLATE SAMPLE)]).
Proof.
  assert (Hv : valid_request (prompt_request SAMPLE) SAMPLE).
  { split; [reflexivity|]. eexists _, _. repeat split; try reflexivity.
    all: vm_compute; discriminate. }
  apply (proj2 (retries_then_text (limited_once "Use Cloud Run.") [] 1
                  "Use Cloud Run." ltac:(discriminate))
           (prompt_request SAMPLE) SAMPLE Hv ltac:(lia)).
  - intros [|i] Hi; [|lia]. eexists. split; reflexivity.
  - reflexivity.
Defined.

(** X2. A response without text, or with the empty text, is not retried:
    the generator fails after that one call with "No response generated
    from Gemini API." and the flag false; as this message holds "rate"
    (in "generated"), /generate answers 429 with [Retry-After: 60]. *)
Theorem no_text_answered_429 (m : Model) (w : World) (prompt : string) :
  m w prompt = CallReturns TextNone \/ m w prompt = CallReturns (TextStr "") ->
  (forall max_retries,
     0 <= max_retries ->
     _generate_with_retry (live m) prompt max_retries w =
       (Val (false, None, Some "No response generated from Gemini API.", false),
        (w ++ [GenerateContent prompt])%list)) /\
  (forall request project_description,
     valid_request request project_description ->
     prompt = format ARCHITECTURE_PROMPT_TEMPLATE project_description ->
     generate (live m) request w =
       (Val {| body := [("status", PStr "error");
                        ("error", PStr "Service temporarily unavailable due to high demand. Please try again in a few minutes.")];
               status := 429; headers := [("Retry-After", "60")] |},
        (w ++ [GenerateContent prompt])%list)).
Proof.
  intros Hm.
  assert (Hgen : forall max_retries,
     0 <= max_retries ->
     _generate_with_retry (live m) prompt max_retries w =
       (Val NO_RESPONSE, (w ++ [GenerateContent prompt])%list)).
  { intros max_retries Hmax.
    unfold _generate_with_retry, live, bind, loop_fuel. cbn [DEMO_MODE model].
    rewrite retry_loop_step by exact Hmax. cbv zeta.
    destruct Hm as [-> | ->]; reflexivity. }
  split; [exact Hgen|].
  intros request d Hv ->.
  now rewrite (generate_on_failure (live m) request d w _ _ _ Hv (Hgen 2 ltac:(lia))).
Qed.

Lemma no_text_answered_429_witness :
  exists r w',
    generate (live (fun _ _ => CallReturns (TextStr ""))) (prompt_request SAMPLE) []
      = (Val r, w') /\
    status r = 429 /\ calls w' = 1%nat /\ sleeps w' = [].
Proof.
  assert (Hv : valid_request (prompt_request SAMPLE) SAMPLE).
  { split; [reflexivity|]. eexists _, _. repeat split; try reflexivity.
    all: vm_compute; discriminate. }
  eexists _, _. split.
  - apply (proj2 (no_text_answered_429 (fun _ _ => CallReturns (TextStr "")) []
                    (format ARCHITECTURE_PROMPT_TEMPLATE SAMPLE)
                    (or_intror eq_refl))
             (prompt_request SAMPLE) SAMPLE Hv eq_refl).
  - repeat split; reflexivity.
Defined.

(** X3. On a client that is always rate limited, for every
    [max_retries >= 0], the generator makes exactly [max_retries + 1]
    calls, sleeps 1, 2, 4, ... between them, [2 ^ max_retries - 1]
    seconds in all, and fails with the text of the last exception and the
    flag set. *)
Theorem rate_limit_exhausts_retries
    (m : Model) (prompt : string) (max_retries : Z) (w : World) :
  0 <= max_retries ->
  always_rate_limited m ->
  let w' := (w ++ retried prompt 0 (Z.to_nat max_retries)
               ++ [GenerateContent prompt])%list in
  exists e,
    raised (m (w ++ retried prompt 0 (Z.to_nat max_retries))%list prompt) = Some e /\
    _generate_with_retry (live m) prompt max_retries w =
      (Val (false, None,
            Some ("Error generating architecture recommendation: " ++ exn_str e),
            true), w') /\
    Z.of_nat (calls w') = Z.of_nat (calls w) + max_retries + 1 /\
    total_sleep w' = total_sleep w + 2 ^ max_retries - 1.
Proof.
  intros Hmax Hm w'.
  destruct (live_run m prompt max_retries w Hmax) as (n & Hn & _ & Hlast & Hrun).
  destruct (Hm (w ++ retried prompt 0 n)%list prompt) as (e & R & I).
  assert (Z.to_nat max_retries = n) as Hn' by (specialize (Hlast e R I); lia).
  unfold w'. rewrite Hn'. exists e. split; [exact R|].
  split; [now rewrite Hrun, (final_outcome_rate _ _ R), I|].
  rewrite !calls_app, !total_sleep_app, calls_retried, total_sleep_retried by lia.
  change (calls [GenerateContent prompt]) with 1%nat.
  change (total_sleep [GenerateContent prompt]) with 0.
  replace (Z.of_nat n) with max_retries by lia.
  split; lia.
Qed.

Lemma rate_limit_exhausts_retries_witness :
  exists o w',
    _generate_with_retry (live (always_raises "quota exceeded")) "p" 4 [] = (Val o, w') /\
    calls w' = 5%nat /\ sleeps w' = [1; 2; 4; 8] /\ total_sleep w' = 15.
Proof.
  destruct (rate_limit_exhausts_retries (always_raises "quota exceeded") "p" 4 []
              ltac:(lia)) as (e & _ & Hrun & _).
  { intros w p. eexists. split; reflexivity. }
  eexists _, _. split; [exact Hrun|]. repeat split; reflexivity.
Defined.

(** X4. Whatever the environment and the client do, the effects of one
    invocation are none at all, or [n + 1] calls, all with the prompt it
    was given, with the sleeps 1, 2, ..., [2 ^ (n - 1)] between them and
    none after the last call, where [n <= max_retries]; the time slept is
    [2 ^ n - 1]. *)
Theorem generator_effects
    (env : Env) (prompt : string) (max_retries : Z) (w : World) :
  exists o w',
    _generate_with_retry env prompt max_retries w = (Val o, w') /\
    (w' = w \/
     exists n,
       Z.of_nat n <= max_retries /\
       w' = (w ++ retried prompt 0 n ++ [GenerateContent prompt])%list /\
       calls w' = (calls w + n + 1)%nat /\
       total_sleep w' = total_sleep w + 2 ^ Z.of_nat n - 1).
Proof.
  destruct (generator_run env prompt max_retries w) as (o & w' & Hrun & _ & Hw).
  exists o, w'. split; [exact Hrun|].
  destruct Hw as [->|(n & Hn & ->)]; [now left|].
  right. exists n. split; [exact Hn|]. split; [reflexivity|].
  rewrite !calls_app, !total_sleep_app, calls_retried, total_sleep_retried by lia.
  change (calls [GenerateContent prompt]) with 1%nat.
  change (total_sleep [GenerateContent prompt]) with 0.
  split; lia.
Qed.

(** X5. With a negative [max_retries] the loop body never runs: a
    configured client is not called, and the function returns the
    fallback failure, whose message ends in "Unknown error", with the
    flag false. *)
Theorem negative_max_retries
    (m : Model) (prompt : string) (max_retries : Z) (w : World) :
  max_retries < 0 ->
  _generate_with_retry (live m) prompt max_retries w =
    (Val (false, None,
          Some "Error generating architecture recommendation: Unknown error",
          false), w).
Proof. intros Hneg. now rewrite negative_run. Qed.

Lemma negative_max_retries_witness :
  _generate_with_retry (live (always_raises "quota exceeded")) "p" (-1) [] =
    (Val (false, None,
          Some "Error generating architecture recommendation: Unknown error",
          false), []).
Proof.
  apply (negative_max_retries (always_raises "quota exceeded") "p" (-1) []).
  lia.
Defined.

(** X6. The generator sets the rate-limit flag only when the retries are
    used up: a result with the flag set is a failure made from an
    exception taken for a rate limit, on a configured client outside demo
    mode, after exactly [max_retries + 1] calls. *)
Theorem flag_means_retries_exhausted
    (env : Env) (prompt : string) (max_retries : Z) (w w' : World)
    (success : bool) (text error : option string) :
  _generate_with_retry env prompt max_retries w
    = (Val (success, text, error, true), w') ->
  success = false /\ text = None /\
  DEMO_MODE env = false /\ model env <> None /\ 0 <= max_retries /\
  (exists msg, error = Some ("Error generating architecture recommendation: " ++ msg)
               /\ is_rate msg = true) /\
  Z.of_nat (calls w') = Z.of_nat (calls w) + max_retries + 1.
Proof.
  destruct env as [demo [m|]]; destruct demo; try (cbn; discriminate).
  change {| DEMO_MODE := false; model := Some m |} with (live m).
  destruct (Z.lt_ge_cases max_retries 0) as [Hneg|Hpos].
  { rewrite negative_run by exact Hneg. discriminate. }
  destruct (live_run m prompt max_retries w Hpos) as (n & Hn & _ & Hlast & Hrun).
  rewrite Hrun. intros [= Hfin <-].
  destruct (final_outcome_flag _ _ _ _ Hfin) as (e & R & I & -> & ->).
  rewrite (final_outcome_rate _ _ R) in Hfin. injection Hfin as <-.
  specialize (Hlast e R I).
  repeat split; try reflexivity; try discriminate; try lia.
  - exists (exn_str e). auto.
  - rewrite !calls_app, calls_retried.
    change (calls [GenerateContent prompt]) with 1%nat. lia.
Qed.

Lemma flag_means_retries_exhausted_witness :
  exists w',
    _generate_with_retry (live (always_raises "quota exceeded")) "p" 2 []
      = (Val (false, None,
              Some "Error generating architecture recommendation: quota exceeded",
              true), w') /\
    Z.of_nat (calls w') = Z.of_nat (calls []) + 2 + 1.
Proof.
  eexists. split; [vm_compute; reflexivity|].
  apply (flag_means_retries_exhausted
           (live (always_raises "quota exceeded")) "p" 2 [] _ false None
           (Some "Error generating architecture recommendation: quota exceeded")
           eq_refl).
Defined.

(** ** Runs of the view *)

(** X7. /generate always answers: for every environment, request and
    client it returns a response and raises nothing.  The status is 200,
    400, 429, 500 or 503; a 200 carries [status: success] and a non-empty
    text, every other status [status: error] and a message; the header
    [Retry-After: 60] comes with 429 and with nothing else. *)
Theorem generate_always_answers (env : Env) (request : Request) (w : World) :
  exists r w',
    generate env request w = (Val r, w') /\
    In (status r) [200; 400; 429; 500; 503] /\
    (status r = 200 ->
     exists text, text <> "" /\
       body r = [("status", PStr "success"); ("response", PStr text)]) /\
    (status r <> 200 ->
     exists msg, body r = [("status", PStr "error"); ("error", PStr msg)]) /\
    (status r = 429 -> headers r = [("Retry-After", "60")]) /\
    (status r <> 429 -> headers r = []).
Proof.
  destruct (generate_run env request w) as (r & w' & Hrun & Ha & _).
  exists r, w'. split; [exact Hrun|].
  destruct Ha as [(text & Ht & ->)|Hin].
  - cbn. repeat split; auto; try congruence; try discriminate. eauto.
  - cbn in Hin.
    repeat (destruct Hin as [<-|Hin]; [cbn; repeat split; auto 10; try congruence;
                                         try discriminate; eauto|]).
    destruct Hin.
Qed.

(** X8. /generate reaches the external client only for a request that
    passed validation, and then with the template formatted on the
    trimmed prompt; one request costs at most 3 calls and at most 3
    seconds of sleep. *)
Theorem generate_effects (env : Env) (request : Request) (w : World) :
  exists r w',
    generate env request w = (Val r, w') /\
    (w' = w \/
     exists project_description n,
       valid_request request project_description /\
       (n <= 2)%nat /\
       w' = (w ++ retried (format ARCHITECTURE_PROMPT_TEMPLATE project_description) 0 n
               ++ [GenerateContent
                     (format ARCHITECTURE_PROMPT_TEMPLATE project_description)])%list) /\
    (calls w <= calls w' <= calls w + 3)%nat /\
    total_sleep w <= total_sleep w' <= total_sleep w + 3.
Proof.
  destruct (generate_run env request w) as (r & w' & Hrun & _ & Hw).
  exists r, w'. split; [exact Hrun|].
  assert (Hshape :
    w' = w \/
    exists d n,
      valid_request request d /\ (n <= 2)%nat /\
      w' = (w ++ retried (format ARCHITECTURE_PROMPT_TEMPLATE d) 0 n
              ++ [GenerateContent (format ARCHITECTURE_PROMPT_TEMPLATE d)])%list).
  { destruct Hw as [[-> _]|(d & Hv & _ & [->|(n & Hn & ->)])]; [now left|now left|].
    right. eauto. }
  split; [exact Hshape|].
  destruct Hshape as [->|(d & n & _ & Hn & ->)]; [lia|].
  rewrite !calls_app, !total_sleep_app, calls_retried, total_sleep_retried by lia.
  change (calls [GenerateContent (format ARCHITECTURE_PROMPT_TEMPLATE d)]) with 1%nat.
  change (total_sleep [GenerateContent (format ARCHITECTURE_PROMPT_TEMPLATE d)]) with 0.
  assert (1 <= 2 ^ Z.of_nat n <= 4).
  { destruct n as [|[|[|n]]]; cbn; lia. }
  lia.
Qed.

(** ** Validation at its edges *)

(** X9. For a JSON object with a string prompt, /generate answers 400
    exactly when the trimmed length is outside 10..5000, both bounds
    included: a trimmed prompt of exactly 10 or exactly 5000 characters
    goes to the generator, although the message for the upper bound says
    "less than 5000 characters". *)
Theorem length_bounds_inclusive
    (env : Env) (request : Request) (items : list (string * pyval)) (s : string)
    (w : World) :
  is_json request = true ->
  get_json request = inr (PDict items) ->
  dict_get "prompt" items = Some (PStr s) ->
  exists r w',
    generate env request w = (Val r, w') /\
    (status r = 400 <-> ~ (10 <= str_len (str_strip s) <= 5000)).
Proof.
  intros Hj Hd Hp.
  destruct (generate_run env request w) as (r & w' & Hrun & _ & Hw).
  exists r, w'. split; [exact Hrun|].
  assert (Hvalid : 10 <= str_len (str_strip s) <= 5000 ->
                   valid_request request (str_strip s)).
  { intros Hlen. split; [exact Hj|]. exists items, s. auto. }
  split.
  - intros H400 Hlen.
    destruct Hw as [[_ Hno]|(d & _ & Hne & _)]; [|congruence].
    exact (Hno H400 _ (Hvalid Hlen)).
  - intros Hout.
    unfold generate in Hrun. rewrite (generate_with_object _ _ _ _ Hj Hd), Hp in Hrun.
    destruct (negb (str_truthy (str_strip s))); [now injection Hrun as <- _|].
    destruct (str_len (str_strip s) <? 10) eqn:E1; [now injection Hrun as <- _|].
    destruct (str_len (str_strip s) >? 5000) eqn:E2; [now injection Hrun as <- _|].
    apply Z.ltb_ge in E1. rewrite Z.gtb_ltb in E2. apply Z.ltb_ge in E2. lia.
Qed.

Lemma length_bounds_inclusive_witness :
  (exists r w',
     generate DEMO (prompt_request (str_repeat "x" (Z.to_nat 5000))) [] = (Val r, w') /\
     status r = 200) /\
  (exists r w',
     generate DEMO (prompt_request "0123456789") [] = (Val r, w') /\ status r = 200).
Proof.
  split.
  - destruct (length_bounds_inclusive DEMO
                (prompt_request (str_repeat "x" (Z.to_nat 5000)))
                [("prompt", PStr (str_repeat "x" (Z.to_nat 5000)))]
                (str_repeat "x" (Z.to_nat 5000)) [] eq_refl eq_refl eq_refl)
      as (r & w' & Hrun & _).
    exists r, w'. split; [exact Hrun|].
    vm_compute in Hrun. now injection Hrun as <- _.
  - destruct (length_bounds_inclusive DEMO (prompt_request "0123456789")
                [("prompt", PStr "0123456789")] "0123456789" [] eq_refl eq_refl eq_refl)
      as (r & w' & Hrun & _).
    exists r, w'. split; [exact Hrun|].
    vm_compute in Hrun. now injection Hrun as <- _.
Defined.

Lemma rstrip_idempotent (s : string) : rstrip (rstrip s) = rstrip s.
Proof.
  induction s as [|c s IH]; [reflexivity|].
  cbn [rstrip]. destruct (rstrip s) as [|d r] eqn:E.
  - destruct (isspace c) eqn:Ec; [reflexivity|]. cbn [rstrip]. now rewrite Ec.
  - change (rstrip (String c (String d r)))
      with (match rstrip (String d r) with
            | EmptyString => if isspace c then EmptyString else String c EmptyString
            | x => String c x
            end).
    now rewrite IH.
Qed.

(** A string that does not start with white space keeps its start when
    white space is removed at its end. *)
Lemma lstrip_rstrip (t : string) :
  lstrip t = t -> lstrip (rstrip t) = rstrip t.
Proof.
  destruct t as [|c t]; [reflexivity|].
  intros Hl. cbn [lstrip] in Hl.
  destruct (isspace c) eqn:Ec.
  - exfalso.
    assert (Hlen : forall u, (String.length (lstrip u) <= String.length u)%nat).
    { induction u as [|x u IHu]; cbn; [lia|]. destruct (isspace x); cbn; lia. }
    specialize (Hlen t). rewrite Hl in Hlen. cbn in Hlen. lia.
  - cbn [rstrip]. destruct (rstrip t); rewrite ?Ec; cbn [lstrip]; now rewrite Ec.
Qed.

Lemma lstrip_idempotent (s : string) : lstrip (lstrip s) = lstrip s.
Proof.
  induction s as [|c s IH]; [reflexivity|].
  cbn [lstrip]. destruct (isspace c) eqn:Ec; [exact IH|].
  cbn [lstrip]. now rewrite Ec.
Qed.

Lemma str_strip_idempotent (s : string) : str_strip (str_strip s) = str_strip s.
Proof.
  unfold str_strip.
  rewrite (lstrip_rstrip (lstrip s)) by apply lstrip_idempotent.
  apply rstrip_idempotent.
Qed.

(** X10. White space around the prompt never counts: two JSON objects
    whose string prompts are equal once trimmed get the same answer with
    the same effects, and a prompt is answered as its trimmed form is. *)
Theorem surrounding_whitespace_ignored
    (recommend : string -> M (bool * option string * option string))
    (request1 request2 : Request) (items1 items2 : list (string * pyval))
    (s1 s2 : string) (w : World) :
  is_json request1 = true -> get_json request1 = inr (PDict items1) ->
  dict_get "prompt" items1 = Some (PStr s1) ->
  is_json request2 = true -> get_json request2 = inr (PDict items2) ->
  dict_get "prompt" items2 = Some (PStr s2) ->
  (str_strip s1 = str_strip s2 \/ s2 = str_strip s1) ->
  generate_with recommend request1 w = generate_with recommend request2 w.
Proof.
  intros Hj1 Hd1 Hp1 Hj2 Hd2 Hp2 Hs.
  assert (Heq : str_strip s1 = str_strip s2).
  { destruct Hs as [H| ->]; [exact H|]. now rewrite str_strip_idempotent. }
  rewrite (generate_with_prompt _ _ _ _ _ Hj1 Hd1 Hp1).
  rewrite (generate_with_prompt _ _ _ _ _ Hj2 Hd2 Hp2).
  now rewrite Heq.
Qed.

Lemma surrounding_whitespace_ignored_witness :
  generate (live (always_raises "API Error")) (prompt_request ("   " ++ SAMPLE ++ "  ")) []
  = generate (live (always_raises "API Error")) (prompt_request SAMPLE) [].
Proof.
  apply (surrounding_whitespace_ignored
           (generate_architecture_recommendation (live (always_raises "API Error")))
           (prompt_request ("   " ++ SAMPLE ++ "  ")) (prompt_request SAMPLE)
           [("prompt", PStr ("   " ++ SAMPLE ++ "  "))] [("prompt", PStr SAMPLE)]
           ("   " ++ SAMPLE ++ "  ") SAMPLE []
           eq_refl eq_refl eq_refl eq_refl eq_refl eq_refl).
  right. vm_compute. reflexivity.
Defined.

(** X11. A JSON document that is not an object never reaches the
    generator and is never answered with 200.  A false value ([null],
    [false], 0, the empty string or list) gets the 400 of a missing
    prompt; so does a list without the element "prompt" and a string
    without the substring "prompt"; a list or string that holds "prompt",
    and any other number or [true], ends in the catch-all 500. *)
Theorem non_object_body
    (recommend : string -> M (bool * option string * option string))
    (request : Request) (data : pyval) (w : World) :
  is_json request = true ->
  get_json request = inr data ->
  (forall items, data <> PDict items) ->
  exists r,
    generate_with recommend request w = (Val r, w) /\
    (r = error_response "Missing required field: prompt" 400 \/
     r = error_response "An unexpected error occurred. Please try again." 500) /\
    (truthy data = false -> status r = 400) /\
    (forall l, data = PList l -> (status r = 500 <-> In (PStr "prompt") l)) /\
    (forall s, data = PStr s -> (status r = 500 <-> str_in "prompt" s = true)) /\
    (truthy data = true ->
     (forall l, data <> PList l) -> (forall s, data <> PStr s) -> status r = 500).
Proof.
  intros Hj Hd Hno.
  rewrite (generate_with_non_object _ _ _ _ Hj Hd Hno).
  eexists. split; [reflexivity|].
  assert (Hex : forall l,
    existsb (fun x => match x with
                      | PStr s => (s =? "prompt")%string
                      | _ => false end) l = true <-> In (PStr "prompt") l).
  { intros l. rewrite existsb_exists. split.
    - intros (x & Hin & Hx). destruct x; try discriminate.
      apply String.eqb_eq in Hx. now subst.
    - intros Hin. exists (PStr "prompt"). now split. }
  split; [|split; [|split; [|split]]].
  - destruct (negb (truthy data)); [now left|].
    destruct data; try (now right).
    + destruct (str_in "prompt" s); auto.
    + destruct (existsb _ l); auto.
  - intros ->. reflexivity.
  - intros l ->. cbn [truthy]. destruct l as [|x l]; cbn [negb].
    + split; [discriminate|intros []].
    + rewrite <- Hex. destruct (existsb _ (x :: l)); cbn; split; congruence.
  - intros s ->. cbn [truthy]. destruct (str_truthy s) eqn:Et; cbn [negb].
    + destruct (str_in "prompt" s); cbn; split; congruence.
    + assert (s = "") as -> by (destruct s; [reflexivity|discriminate]).
      cbn. split; discriminate.
  - intros Ht Hl Hs. rewrite Ht. cbn [negb].
    destruct data; try reflexivity; [now destruct (Hs s)|now destruct (Hl l)].
Qed.

Lemma non_object_body_witness :
  generate DEMO {| is_json := true; get_json := inr (PList [PStr "prompt"]) |} []
    = (Val UNEXPECTED, []) /\
  generate DEMO {| is_json := true; get_json := inr (PStr "my prompts") |} []
    = (Val UNEXPECTED, []) /\
  generate DEMO {| is_json := true; get_json := inr PNone |} []
    = (Val MISSING_PROMPT, []).
Proof.
  assert (H : forall data,
    (forall items, data <> PDict items) ->
    exists r, generate DEMO {| is_json := true; get_json := inr data |} [] = (Val r, [])).
  { intros data Hno.
    destruct (non_object_body (generate_architecture_recommendation DEMO)
                {| is_json := true; get_json := inr data |} data []
                eq_refl eq_refl Hno) as (r & Hrun & _).
    now exists r. }
  split; [|split].
  - destruct (H (PList [PStr "prompt"]) ltac:(discriminate)) as (r & Hr).
    rewrite Hr. vm_compute in Hr. now injection Hr as <-.
  - destruct (H (PStr "my prompts") ltac:(discriminate)) as (r & Hr).
    rewrite Hr. vm_compute in Hr. now injection Hr as <-.
  - destruct (H PNone ltac:(discriminate)) as (r & Hr).
    rewrite Hr. vm_compute in Hr. now injection Hr as <-.
Defined.

(** ** Start-up and the prompt *)

Lemma generate_in_demo (env : Env) request project_description w :
  DEMO_MODE env = true ->
  valid_request request project_description ->
  generate env request w = (Val (success_response demo_response), w).
Proof.
  intros Hd Hv. unfold generate.
  rewrite (generate_with_valid _ _ _ _ Hv).
  unfold try_except, bind, generate_architecture_recommendation,
    generate_architecture_recommendation_with, bind, _generate_with_retry.
  rewrite Hd. unfold ret at 1 2. now rewrite respond_success.
Qed.

Lemma generate_unconfigured (env : Env) request project_description w :
  DEMO_MODE env = false ->
  model env = None ->
  valid_request request project_description ->
  generate env request w = (Val CONFIG_ERROR, w).
Proof.
  intros Hd Hm Hv.
  change CONFIG_ERROR with (classify CONFIG_MESSAGE).
  apply generate_on_failure with project_description false; [exact Hv|].
  unfold _generate_with_retry. now rewrite Hd, Hm.
Qed.

(** X12. After start-up, demo mode and a configured client exclude each
    other, whatever the environment holds: the client is configured
    exactly when [GEMINI_API_KEY] is set and not empty and demo mode is
    off.  The health check answers 200 with these two flags, never both
    true, and has no effect. *)
Theorem startup_health
    (GenerativeModel : string -> string -> Model)
    (environ : list (string * string)) (w : World) :
  let env := startup GenerativeModel environ in
  (DEMO_MODE env = true -> model env = None) /\
  (model env <> None <->
   DEMO_MODE env = false /\
   exists key, environ_get "GEMINI_API_KEY" environ = Some key /\ key <> "") /\
  exists configured demo,
    healthz env w =
      (Val {| body := [("status", PStr "ok");
                       ("gemini_configured", PBool configured);
                       ("demo_mode", PBool demo)];
              status := 200; headers := [] |}, w) /\
    (configured = true <-> model env <> None) /\
    demo = DEMO_MODE env /\
    (configured = true -> demo = false).
Proof.
  intros env.
  assert (Hcfg : model env <> None <->
                 DEMO_MODE env = false /\
                 exists key, environ_get "GEMINI_API_KEY" environ = Some key /\ key <> "").
  { unfold env, startup. cbn [model DEMO_MODE].
    destruct (environ_get "GEMINI_API_KEY" environ) as [key|].
    - destruct (existsb _ _); cbn [negb].
      + rewrite andb_false_r. split; [congruence|]. intros [H _]. discriminate.
      + rewrite andb_true_r. destruct key as [|c key]; cbn.
        * split; [congruence|]. intros (_ & key & [= <-] & H). congruence.
        * split; [|discriminate]. intros _. split; [reflexivity|].
          eexists. split; [reflexivity|discriminate].
    - split; [congruence|]. intros (_ & key & H & _). discriminate. }
  assert (Hexcl : DEMO_MODE env = true -> model env = None).
  { intros Hd. destruct (model env) eqn:E; [|reflexivity].
    destruct (proj1 Hcfg) as [H _]; [discriminate|congruence]. }
  split; [exact Hexcl|]. split; [exact Hcfg|].
  eexists _, _. split; [reflexivity|].
  split; [|split; [reflexivity|]].
  - destruct (model env); split; congruence.
  - intros Hc. destruct (model env) eqn:E; [|discriminate].
    destruct (DEMO_MODE env) eqn:Ed; [|reflexivity].
    specialize (Hexcl eq_refl). congruence.
Qed.

(** X13. What a started application does with a valid request follows
    from the environment alone in two cases.  When [DEMO_MODE] is "true",
    "1" or "yes" in any case, the answer is 200 with the canned text and
    the client is not called, whether a key is set or not.  Otherwise,
    when [GEMINI_API_KEY] is unset or empty, the answer is the 500 of a
    configuration error, again without a call. *)
Theorem startup_modes
    (GenerativeModel : string -> string -> Model)
    (environ : list (string * string))
    (request : Request) (project_description : string) (w : World) :
  valid_request request project_description ->
  let env := startup GenerativeModel environ in
  let demo_value := environ_get_default "DEMO_MODE" "" environ in
  (In (str_lower demo_value) ["true"; "1"; "yes"] ->
   generate env request w =
     (Val {| body := [("status", PStr "success"); ("response", PStr demo_response)];
             status := 200; headers := [] |}, w)) /\
  (~ In (str_lower demo_value) ["true"; "1"; "yes"] ->
   environ_get "GEMINI_API_KEY" environ = None \/
   environ_get "GEMINI_API_KEY" environ = Some "" ->
   generate env request w =
     (Val (error_response "Service configuration error. Please try again later." 500),
      w)).
Proof.
  intros Hv env demo_value.
  assert (Hdemo : DEMO_MODE env = true <-> In (str_lower demo_value) ["true"; "1"; "yes"]).
  { unfold env, startup. cbn [DEMO_MODE]. fold demo_value.
    rewrite existsb_exists. split.
    - intros (x & Hin & Hx). apply String.eqb_eq in Hx. now subst.
    - intros Hin. exists (str_lower demo_value). split; [exact Hin|apply String.eqb_refl]. }
  split.
  - intros Hin. apply generate_in_demo with project_description; [|exact Hv].
    now apply Hdemo.
  - intros Hout Hkey.
    apply generate_unconfigured with project_description; [| |exact Hv].
    + apply not_true_is_false. intros E. now apply Hdemo in E.
    + unfold env, startup. cbn [model].
      destruct Hkey as [-> | ->]; reflexivity.
Qed.

Lemma startup_modes_witness :
  generate
    (startup (fun _ _ => always_raises "never called")
       [("GEMINI_API_KEY", "some-key"); ("DEMO_MODE", "Yes")])
    (prompt_request SAMPLE) []
  = (Val (success_response demo_response), []) /\
  generate (startup (fun _ _ => always_raises "never called") [("GEMINI_API_KEY", "")])
    (prompt_request SAMPLE) []
  = (Val CONFIG_ERROR, []).
Proof.
  assert (Hv : valid_request (prompt_request SAMPLE) SAMPLE).
  { split; [reflexivity|]. eexists _, _. repeat split; try reflexivity.
    all: vm_compute; discriminate. }
  split.
  - apply (proj1 (startup_modes (fun _ _ => always_raises "never called")
                    [("GEMINI_API_KEY", "some-key"); ("DEMO_MODE", "Yes")]
                    (prompt_request SAMPLE) SAMPLE [] Hv)).
    vm_compute. auto.
  - apply (proj2 (startup_modes (fun _ _ => always_raises "never called")
                    [("GEMINI_API_KEY", "")]
                    (prompt_request SAMPLE) SAMPLE [] Hv)).
    + vm_compute. intros [H|[H|[H|[]]]]; discriminate.
    + right. reflexivity.
Defined.

(** X14. The prompt sent to the client is the text of the template
    before its field, the project description as it is, and the text
    after the field: the description is inserted once and is not read as
    a format string, whatever braces it holds. *)
Theorem prompt_around_description (project_description : string) :
  format ARCHITECTURE_PROMPT_TEMPLATE project_description
    = PROMPT_HEAD ++ project_description ++ PROMPT_TAIL.
Proof. vm_compute. reflexivity. Qed.
